(** * Student Performance Dashboard: filtering and metric derivation

    A shallow embedding of [student.py].  The script is a single Streamlit
    page: it loads six tables, keeps three selectors in the session state,
    filters the summary table with them and derives every view from the
    filtered table.  Tables are lists of records, text cells are strings,
    a numeric cell is the rational value of its float, a cell that may be
    blank or a date that failed to parse is an option, and an exception
    raised by the script is a constructor of [outcome]. *)

From Stdlib Require Import String Ascii List Bool Arith ZArith QArith Lia.
From Stdlib Require Import Qabs Permutation Sorted DecimalString.
Import ListNotations.

Open Scope string_scope.

(** ** Outcomes of script fragments that may raise *)

Inductive outcome (A : Type) : Type :=
| Ok (a : A)
| ValueError
| KeyError
| IndexError.

Arguments Ok {A} a.
Arguments ValueError {A}.
Arguments KeyError {A}.
Arguments IndexError {A}.

Definition bind {A B : Type} (m : outcome A) (k : A -> outcome B) : outcome B :=
  match m with
  | Ok a => k a
  | ValueError => ValueError
  | KeyError => KeyError
  | IndexError => IndexError
  end.

(** ** Values that label rows, groups and columns *)

Class Key (K : Type) : Type := {
  keq : K -> K -> bool;
  kle : K -> K -> bool;
  keq_iff : forall a b : K, keq a b = true <-> a = b
}.

#[export] Instance string_Key : Key string :=
  {| keq := String.eqb; kle := String.leb; keq_iff := String.eqb_eq |}.

#[export] Instance bool_Key : Key bool :=
  {| keq := Bool.eqb; kle := implb; keq_iff := Bool.eqb_true_iff |}.

#[export] Instance Z_Key : Key Z :=
  {| keq := Z.eqb; kle := Z.leb; keq_iff := Z.eqb_eq |}.

Definition pair_keq {A B : Type} `{Key A} `{Key B} (p q : A * B) : bool :=
  keq (fst p) (fst q) && keq (snd p) (snd q).

Definition pair_kle {A B : Type} `{Key A} `{Key B} (p q : A * B) : bool :=
  if keq (fst p) (fst q) then kle (snd p) (snd q) else kle (fst p) (fst q).

#[export] Instance pair_Key {A B : Type} `{Key A} `{Key B} : Key (A * B).
Proof.
  refine {| keq := pair_keq; kle := pair_kle |}.
  intros [a b] [c d]. unfold pair_keq; simpl.
  rewrite andb_true_iff, !keq_iff. split.
  - intros [-> ->]. reflexivity.
  - intros [= -> ->]. auto.
Defined.

(** A numeric cell of a derived Series: a number, or one of the two
    non-numbers that pandas arithmetic produces. *)
Inductive cell : Type :=
| Num (q : Q)
| Inf
| NaN.

(** ** The list and Series primitives the script relies on *)

Module Frame.

(** [Series.unique()]: the distinct values, in order of first appearance. *)
Fixpoint unique {K : Type} `{Key K} (l : list K) : list K :=
  match l with
  | [] => []
  | x :: t => x :: filter (fun y => negb (keq y x)) (unique t)
  end.

(** Python's [sorted], and the key order of [groupby]. *)
Fixpoint insert_sorted {K : Type} `{Key K} (x : K) (l : list K) : list K :=
  match l with
  | [] => [x]
  | y :: t => if kle x y then x :: y :: t else y :: insert_sorted x t
  end.

Definition sorted {K : Type} `{Key K} (l : list K) : list K :=
  fold_right insert_sorted [] l.

(** [list.index(x)] and [Index.get_loc(x)]: position of the first
    occurrence; [None] stands for the exception raised when [x] is
    absent. *)
Fixpoint index {K : Type} `{Key K} (l : list K) (x : K) : option nat :=
  match l with
  | [] => None
  | y :: t => if keq y x then Some 0%nat else option_map S (index t x)
  end.

(** Label lookup in a Series. *)
Fixpoint lookup {K V : Type} `{Key K} (k : K) (s : list (K * V)) : option V :=
  match s with
  | [] => None
  | (k', v) :: t => if keq k' k then Some v else lookup k t
  end.

(** [DataFrame.head(n)]. *)
Definition head {A : Type} (n : nat) (l : list A) : list A := firstn n l.

(** [pd.merge(left, right[['ID']], on='ID', how='inner')]: every left row
    once per right row carrying the same ID, in left order. *)
Definition merge {A : Type} (id : A -> string) (left : list A)
           (right_ids : list string) : list A :=
  flat_map (fun r => map (fun _ => r) (filter (fun i => i =? id r) right_ids)) left.

(** The rows of one group. *)
Definition group {A K : Type} `{Key K} (key : A -> K) (k : K) (t : list A) : list A :=
  filter (fun r => keq (key r) k) t.

(** The group labels of [groupby(key)], sorted, for a key column without
    blank cells. *)
Definition groups {A K : Type} `{Key K} (key : A -> K) (t : list A) : list K :=
  sorted (unique (map key t)).

Definition of_nat (n : nat) : Q := inject_Z (Z.of_nat n).

Definition sum (l : list Q) : Q := fold_right Qplus 0%Q l.

(** [Series.mean()]. *)
Definition mean (l : list Q) : Q := (sum l / of_nat (length l))%Q.

(** [groupby(key).size()]. *)
Definition groupby_size {A K : Type} `{Key K} (key : A -> K) (t : list A)
  : list (K * nat) :=
  map (fun k => (k, length (group key k t))) (groups key t).

(** The cells of a column that are present; [None] is a missing cell. *)
Definition dropna {K : Type} (column : list (option K)) : list K :=
  flat_map (fun c => match c with
                     | Some k => [k]
                     | None => []
                     end) column.

(** Whether a key cell holds the label [k]; a missing cell holds none. *)
Definition has_key {K : Type} `{Key K} (c : option K) (k : K) : bool :=
  match c with
  | Some k' => keq k' k
  | None => false
  end.

(** The rows of one group when key cells may be missing. *)
Definition group_by {A K : Type} `{Key K} (key : A -> option K) (k : K) (t : list A)
  : list A :=
  filter (fun r => has_key (key r) k) t.

(** The group labels: a row whose key is missing belongs to no group. *)
Definition groups_by {A K : Type} `{Key K} (key : A -> option K) (t : list A) : list K :=
  sorted (unique (dropna (map key t))).

(** [groupby(key)[value].mean()]. *)
Definition groupby_mean {A K : Type} `{Key K} (key : A -> option K) (value : A -> Q)
           (t : list A) : list (K * Q) :=
  map (fun k => (k, mean (map value (group_by key k t)))) (groups_by key t).

(** Float arithmetic on cells.  The cells the script combines are row
    counts, so an infinity is always the positive one. *)
Definition fdiv (a b : Q) : cell :=
  if Qeq_bool b 0 then (if Qeq_bool a 0 then NaN else Inf) else Num (a / b)%Q.

Definition cell_div (a b : cell) : cell :=
  match a, b with
  | Num x, Num y => fdiv x y
  | Num _, Inf => Num 0
  | Inf, Num _ => Inf
  | _, _ => NaN
  end.

Definition cell_add (a b : cell) : cell :=
  match a, b with
  | Num x, Num y => Num (x + y)%Q
  | NaN, _ | _, NaN => NaN
  | _, _ => Inf
  end.

Definition cell_mul (c : cell) (k : Q) : cell :=
  match c with
  | Num q => Num (q * k)%Q
  | Inf => Inf
  | NaN => NaN
  end.

(** A binary operator on two Series: the labels of both are united and
    sorted, and a label missing on either side yields NaN. *)
Definition series_op {K : Type} `{Key K} (op : cell -> cell -> cell)
           (a b : list (K * cell)) : list (K * cell) :=
  map (fun k =>
         (k, match lookup k a, lookup k b with
             | Some x, Some y => op x y
             | _, _ => NaN
             end))
      (sorted (unique (map fst a ++ map fst b))).

Definition series_mul {K : Type} (a : list (K * cell)) (k : Q) : list (K * cell) :=
  map (fun e => (fst e, cell_mul (snd e) k)) a.

(** A Series of row counts, seen as numbers. *)
Definition counts {K : Type} (s : list (K * nat)) : list (K * cell) :=
  map (fun e => (fst e, Num (of_nat (snd e)))) s.

End Frame.

(** ** The tables *)

(** A parsed date; [None] in a date column is pandas' NaT. *)
Record datetime : Type := {
  year : Z;
  month : Z;
  day : Z;
  seconds : Z
}.

(** [a >= b] on two timestamps. *)
Definition datetime_ge (a b : datetime) : bool :=
  match (year a ?= year b)%Z with
  | Gt => true
  | Lt => false
  | Eq =>
    match (month a ?= month b)%Z with
    | Gt => true
    | Lt => false
    | Eq =>
      match (day a ?= day b)%Z with
      | Gt => true
      | Lt => false
      | Eq => (seconds b <=? seconds a)%Z
      end
    end
  end.

(** A comparison of a date column against a timestamp is false on NaT. *)
Definition column_ge (d : option datetime) (t : datetime) : bool :=
  match d with
  | Some a => datetime_ge a t
  | None => false
  end.

Module Summary.

Record row : Type := {
  ID : string;
  Name : string;
  Class : string;
  Section_ : string;
  Gender : string;
  Average_Score : Q;
  Attendance_Rate : Q;
  Submission_Rate : Q
}.

(** [filtered_summary[['ID']]]. *)
Definition ids (t : list row) : list string := map ID t.

(** [DataFrame.empty]. *)
Definition empty {A : Type} (t : list A) : bool :=
  match t with
  | [] => true
  | _ :: _ => false
  end.

End Summary.

Module Scores.
(** A blank Subject or Term cell is read as missing. *)
Record row : Type := {
  ID : string;
  Subject : option string;
  Term : option string;
  Score : Q
}.
End Scores.

Module Assignments.

(** A line of [student_assignments.csv] as read, before the dates are
    converted. *)
Record csv_row : Type := {
  csv_ID : string;
  csv_Assignment : string;
  csv_Subject : string;
  csv_Deadline : string;
  csv_Submitted : bool;
  csv_Marks : Q
}.

Record row : Type := {
  ID : string;
  Assignment : string;
  Subject : string;
  Deadline : option datetime;
  Submitted : bool;
  Marks : Q
}.

End Assignments.

Module Attendance.
Record row : Type := {
  ID : string;
  Date : option datetime;
  Present : bool
}.
End Attendance.

(** ** Loading (lines 13-36) *)

Module Loader.
Import Assignments.

(** [pd.to_datetime(column, errors='coerce')]: [to_datetime] is the date
    parser, which answers [None] on text it cannot read; the coerced
    column then holds NaT. *)
Definition coerce (to_datetime : string -> option datetime) (r : csv_row) : row :=
  {| ID := csv_ID r;
     Assignment := csv_Assignment r;
     Subject := csv_Subject r;
     Deadline := to_datetime (csv_Deadline r);
     Submitted := csv_Submitted r;
     Marks := csv_Marks r |}.

Definition load_assignments (to_datetime : string -> option datetime)
           (file : list csv_row) : list row :=
  map (coerce to_datetime) file.

End Loader.

(** ** The sidebar filters (lines 44-86) *)

Module Sidebar.
Import Summary.

(** [st.session_state]: the three selectors. *)
Record session_state : Type := {
  selected_class : string;
  selected_section : string;
  selected_gender : string
}.

(** One of the three filtering steps: the table is narrowed unless the
    selector is ["All"]. *)
Definition narrow (field : row -> string) (selector : string)
           (table : list row) : list row :=
  if negb (selector =? "All")
  then filter (fun r => field r =? selector) table
  else table.

Definition filtered_summary (summary : list row) (st : session_state) : list row :=
  let t := summary in
  let t := narrow Class (selected_class st) t in
  let t := narrow Section_ (selected_section st) t in
  let t := narrow Gender (selected_gender st) t in
  t.

(** The selector predicate of the specification: a selector accepts a
    cell when it is ["All"] or equal to the cell. *)
Definition accepts (selector cell : string) : bool :=
  (selector =? "All") || (cell =? selector).

Definition survives (st : session_state) (r : row) : bool :=
  accepts (selected_class st) (Class r)
  && accepts (selected_section st) (Section_ r)
  && accepts (selected_gender st) (Gender r).

(** Section options offered for the selected class. *)
Definition available_sections (summary : list row) (cls : string) : list string :=
  (["All"] ++
   (if negb (cls =? "All")
    then Frame.sorted (Frame.unique (map Section_ (filter (fun r => Class r =? cls) summary)))
    else []))%list.

(** The [index=] argument of the section select box. *)
Definition section_index (available : list string) (section : string) : outcome nat :=
  if section =? "All" then Ok 0%nat
  else match Frame.index available section with
       | Some i => Ok i
       | None => ValueError
       end.

(** The section select box right after the class select box returned
    [cls]: the box is drawn with the computed default index and its value
    is the option at that index. *)
Definition select_section (summary : list row) (cls previous : string) : outcome string :=
  let available := available_sections summary cls in
  bind (section_index available previous) (fun i =>
    match nth_error available i with
    | Some s => Ok s
    | None => IndexError
    end).

(** The session state after the user changed the class selector. *)
Definition change_class (summary : list row) (st : session_state) (cls : string)
  : outcome session_state :=
  bind (select_section summary cls (selected_section st)) (fun s =>
    Ok {| selected_class := cls;
          selected_section := s;
          selected_gender := selected_gender st |}).

End Sidebar.

(** ** Overview metrics (lines 89-94) *)

Module Overview.
Import Summary.

(** Nearest integer to a non-negative rational, ties to even. *)
Definition round_half_even (q : Q) : Z :=
  let n := Qnum q in
  let d := Zpos (Qden q) in
  let lo := (n / d)%Z in
  match (2 * (n mod d) ?= d)%Z with
  | Lt => lo
  | Gt => (lo + 1)%Z
  | Eq => if Z.even lo then lo else (lo + 1)%Z
  end.

Definition digit (z : Z) : ascii := ascii_of_nat (48 + Z.to_nat z).

Definition decimal (z : Z) : string :=
  DecimalString.NilZero.string_of_uint (N.to_uint (Z.to_N z)).

(** One decimal of an exact rational, ties to even. *)
Definition exact_1f (q : Q) : string :=
  let tenths := round_half_even (Qabs q * 10)%Q in
  (if (Qnum q <? 0)%Z then "-" else "")
    ++ decimal (tenths / 10) ++ "." ++ String (digit (tenths mod 10)) "".

(** The numbers of the page are binary floating-point numbers: the mean
    and the product are the library's and the language's float operations
    and [:.1f] renders a float.  The metrics are stated over these
    operations; a cell is the value of its float. *)
Record arithmetic : Type := {
  mean : list Q -> Q;
  times : Q -> Q -> Q;
  format_1f : Q -> string
}.


(** The same operations carried out exactly. *)
Definition exact : arithmetic :=
  {| mean := Frame.mean; times := Qmult; format_1f := exact_1f |}.



End Overview.

(** ** Top and bottom performers (lines 105-125) *)

Module Ranking.
Import Summary.

(** [DataFrame.sort_values(by, ascending=...)].  The script leaves the
    sort kind at the library's default and the library is not part of the
    repository, so the sorting routine is a parameter of the ranking. *)
Definition sorter : Type := (row -> Q) -> bool -> list row -> list row.

(** The order in which two adjacent rows of the result may stand. *)
Definition in_order (by_ : row -> Q) (ascending : bool) (a b : row) : Prop :=
  if ascending then (by_ a <= by_ b)%Q else (by_ b <= by_ a)%Q.

Definition in_order_b (by_ : row -> Q) (ascending : bool) (a b : row) : bool :=
  if ascending then Qle_bool (by_ a) (by_ b) else Qle_bool (by_ b) (by_ a).

(** What the library promises of [sort_values] whatever the kind: the
    same rows, in order. *)
Definition sorts (sort_values : sorter) : Prop :=
  forall by_ ascending t,
    Permutation (sort_values by_ ascending t) t /\
    StronglySorted (in_order by_ ascending) (sort_values by_ ascending t).

Definition ranked (sort_values : sorter) (by_ : row -> Q) (ascending : bool)
           (n : nat) (filtered_summary : list row) : list row :=
  Frame.head n (sort_values by_ ascending filtered_summary).

Definition top_performers (sort_values : sorter) (filtered_summary : list row) : list row :=
  ranked sort_values Average_Score false 5 filtered_summary.

Definition bottom_performers (sort_values : sorter) (filtered_summary : list row) : list row :=
  ranked sort_values Average_Score true 5 filtered_summary.

(** Ties in original row order: for every value of the field, the rows of
    the result holding it are the first such rows of the cohort, in cohort
    order. *)
Definition tied (by_ : row -> Q) (v : Q) (t : list row) : list row :=
  filter (fun r => Qeq_bool (by_ r) v) t.

Definition prefix {A : Type} (p l : list A) : Prop := exists rest, l = (p ++ rest)%list.

Definition ties_in_row_order (by_ : row -> Q) (cohort result : list row) : Prop :=
  forall v, prefix (tied by_ v result) (tied by_ v cohort).

(** A sorting routine that keeps the library's promise. *)
Fixpoint insert_row (by_ : row -> Q) (ascending : bool) (x : row) (l : list row)
  : list row :=
  match l with
  | [] => [x]
  | y :: t =>
    if in_order_b by_ ascending x y then x :: y :: t
    else y :: insert_row by_ ascending x t
  end.

Definition insertion_sort : sorter :=
  fun by_ ascending t => fold_right (insert_row by_ ascending) [] t.

End Ranking.

(** ** Resolving a selected name to a student (lines 197-210, 272, 339, 405) *)

Module Resolver.
Import Summary.

(** What a tab does with the selected name. *)
Inductive resolution : Type :=
| NoStudentFound
| SelectedID (id : string)
| SelectID (ids : list string).

Definition matching_students (filtered_summary : list row) (selected_student : string)
  : list row :=
  filter (fun r => Name r =? selected_student) filtered_summary.

(** Tab "Performance": a warning when nothing matches, a second select box
    over the IDs when several rows match, the ID of the only row
    otherwise. *)
Definition selected_id (filtered_summary : list row) (selected_student : string)
  : resolution :=
  let matching := matching_students filtered_summary selected_student in
  if empty matching then NoStudentFound
  else if (1 <? length matching)%nat then SelectID (map ID matching)
  else match map ID matching with
       | id :: _ => SelectedID id
       | [] => NoStudentFound
       end.

(** [column.values[0]]. *)
Definition values_0 (column : list string) : outcome string :=
  match column with
  | v :: _ => Ok v
  | [] => IndexError
  end.

(** Tabs "Attendance", "Assignments" and "Remarks". *)
Definition student_id_att (filtered_summary : list row) (selected_student_att : string)
  : outcome string :=
  values_0 (map ID (matching_students filtered_summary selected_student_att)).

Definition student_id_assign (filtered_summary : list row)
           (selected_student_assign : string) : outcome string :=
  values_0 (map ID (matching_students filtered_summary selected_student_assign)).

Definition student_id_remark (filtered_summary : list row)
           (selected_student_remark : string) : outcome string :=
  values_0 (map ID (matching_students filtered_summary selected_student_remark)).

End Resolver.

(** ** Tab "Performance": subject and term means (lines 164-179) *)

Module Performance.
Import Scores.

Definition merged_scores (scores : list row) (filtered_summary : list Summary.row)
  : list row :=
  Frame.merge ID scores (Summary.ids filtered_summary).

Definition subject_scores (merged : list row) : list (string * Q) :=
  Frame.groupby_mean Subject Score merged.

(** The key of [groupby(['Subject', 'Term'])]: missing as soon as one of
    the two cells is. *)
Definition Subject_Term (r : row) : option (string * string) :=
  match Subject r, Term r with
  | Some s, Some t => Some (s, t)
  | _, _ => None
  end.

Definition term_scores (merged : list row) : list ((string * string) * Q) :=
  Frame.groupby_mean Subject_Term Score merged.

(** The number of score rows behind one (Subject, Term) mean. *)
Definition term_rows (merged : list row) (k : string * string) : Q :=
  Frame.of_nat (length (Frame.group_by Subject_Term k merged)).

(** Following the specification: the (Subject, Term) means brought back
    to one value per Subject, each mean weighted by its row count. *)
Definition reaggregated (merged : list row) (subject : string) : Q :=
  let terms := filter (fun e => fst (fst e) =? subject) (term_scores merged) in
  (Frame.sum (map (fun e => term_rows merged (fst e) * snd e) terms)
   / Frame.sum (map (fun e => term_rows merged (fst e)) terms))%Q.

End Performance.

(** ** Tab "Attendance": monthly trend (lines 250-254) *)

Module AttendanceTab.
Import Attendance.

(** The label [strftime('%Y-%m')] gives to a date. *)
Definition month_label : Type := (Z * Z)%type.

Definition Month (r : row) : option month_label :=
  option_map (fun d => (year d, month d)) (Date r).

(** The rows [groupby(['Month', 'Present'])] keeps: a row whose month is
    missing belongs to no group. *)
Definition keyed (t : list row) : list (month_label * bool) :=
  flat_map (fun r => match Month r with
                     | Some m => [(m, Present r)]
                     | None => []
                     end) t.

(** The table [unstack().fillna(0)] builds from the group sizes: one line
    per month, one column per value of Present that occurs. *)
Record frame : Type := {
  index : list month_label;
  columns : list bool;
  values : list (list cell)
}.

Definition unstack_fillna (sizes : list ((month_label * bool) * nat)) : frame :=
  let months := Frame.sorted (Frame.unique (map (fun e => fst (fst e)) sizes)) in
  let present := Frame.sorted (Frame.unique (map (fun e => snd (fst e)) sizes)) in
  {| index := months;
     columns := present;
     values :=
       map (fun m =>
              map (fun c => match Frame.lookup (m, c) sizes with
                            | Some n => Num (Frame.of_nat n)
                            | None => Num 0
                            end) present) months |}.

(** [frame[c]]: the column labelled [c], or [KeyError]. *)
Definition column (df : frame) (c : bool) : outcome (list (month_label * cell)) :=
  match Frame.index (columns df) c with
  | Some i => Ok (combine (index df) (map (fun line => nth i line NaN) (values df)))
  | None => KeyError
  end.

Definition filtered_attendance (attendance : list row)
           (filtered_summary : list Summary.row) : list row :=
  Frame.merge ID attendance (Summary.ids filtered_summary).

(** The column 'Attendance Rate' of [monthly_attendance]. *)
Definition Attendance_Rate (filtered : list row) : outcome (list (month_label * cell)) :=
  let monthly_attendance := unstack_fillna (Frame.groupby_size (fun k => k) (keyed filtered)) in
  bind (column monthly_attendance true) (fun present =>
  bind (column monthly_attendance true) (fun present' =>
  bind (column monthly_attendance false) (fun absent =>
    Ok (Frame.series_op Frame.cell_div present
          (Frame.series_op Frame.cell_add present' absent))))).

(** The trend is computed only when the joined table has rows. *)
Definition monthly_trend (attendance : list row) (filtered_summary : list Summary.row)
  : outcome (list (month_label * cell)) :=
  let filtered := filtered_attendance attendance filtered_summary in
  if negb (Summary.empty filtered) then Attendance_Rate filtered else Ok [].

End AttendanceTab.

(** ** Tab "Assignments": completion rate and upcoming deadlines (lines 300-321) *)

Module AssignmentsTab.
Import Assignments.

Definition filtered_assignments (assignments : list row)
           (filtered_summary : list Summary.row) : list row :=
  Frame.merge ID assignments (Summary.ids filtered_summary).

Definition completion_rate (filtered : list row) : list (string * cell) :=
  let completed_assignments :=
    Frame.groupby_size Subject (filter (fun r => Bool.eqb (Submitted r) true) filtered) in
  let total_assignments := Frame.groupby_size Subject filtered in
  Frame.series_mul
    (Frame.series_op Frame.cell_div
       (Frame.counts completed_assignments) (Frame.counts total_assignments))
    100.

Definition upcoming (now : datetime) (filtered : list row) : list row :=
  filter (fun r => column_ge (Deadline r) now) filtered.

(** The upcoming-deadlines view from the assignment file as read. *)
Definition upcoming_view (to_datetime : string -> option datetime) (now : datetime)
           (file : list csv_row) (filtered_summary : list Summary.row) : list row :=
  upcoming now
    (filtered_assignments (Loader.load_assignments to_datetime file) filtered_summary).

End AssignmentsTab.

(** ** The class and gender select boxes (lines 56-60, 73-77) *)

Module Selectors.
Import Summary.

(** The options of a select box over a summary column.  The labels are
    sorted as text here; the script sorts a numeric column as numbers,
    which gives the same options in another order. *)
Definition options (column : list string) : list string :=
  (["All"] ++ Frame.sorted (Frame.unique column))%list.

(** Its [index=] argument: 0 for "All", else one more than the position
    of the selected value among the distinct values in order of first
    appearance. *)
Definition default_index (column : list string) (selected : string) : outcome nat :=
  if selected =? "All" then Ok 0%nat
  else match Frame.index (Frame.unique column) selected with
       | Some i => Ok (i + 1)%nat
       | None => ValueError
       end.

Definition class_options (summary : list row) : list string :=
  options (map Class summary).

Definition class_index (summary : list row) (st : Sidebar.session_state) : outcome nat :=
  default_index (map Class summary) (Sidebar.selected_class st).

Definition gender_options (summary : list row) : list string :=
  options (map Gender summary).

Definition gender_index (summary : list row) (st : Sidebar.session_state) : outcome nat :=
  default_index (map Gender summary) (Sidebar.selected_gender st).


End Selectors.

(** ** Per-student views (lines 213, 273-278, 340-361) *)

Module Drilldown.

(** [Series.sum()] on a boolean column. *)
Definition bool_sum (column : list bool) : nat :=
  fold_right (fun (b : bool) (n : nat) => ((if b then 1 else 0) + n)%nat) 0%nat column.

Definition student_scores (scores : list Scores.row) (selected_id : string)
  : list Scores.row :=
  filter (fun r => Scores.ID r =? selected_id) scores.

Definition student_attendance (attendance : list Attendance.row) (student_id_att : string)
  : list Attendance.row :=
  filter (fun r => Attendance.ID r =? student_id_att) attendance.

Definition present_days (student_attendance : list Attendance.row) : nat :=
  bool_sum (map Attendance.Present student_attendance).

Definition absent_days (student_attendance : list Attendance.row) : nat :=
  (length student_attendance - present_days student_attendance)%nat.

(** The values of the attendance pie; [None] is the warning shown when
    the student has no attendance row. *)
Definition attendance_pie (attendance : list Attendance.row) (student_id_att : string)
  : option (nat * nat) :=
  let rows := student_attendance attendance student_id_att in
  if negb (Summary.empty rows) then Some (present_days rows, absent_days rows)
  else None.

Definition student_assignments (assignments : list Assignments.row)
           (student_id_assign : string) : list Assignments.row :=
  filter (fun r => Assignments.ID r =? student_id_assign) assignments.

Definition submitted (student_assignments : list Assignments.row) : nat :=
  bool_sum (map Assignments.Submitted student_assignments).

Definition not_submitted (student_assignments : list Assignments.row) : nat :=
  (length student_assignments - submitted student_assignments)%nat.

Definition submitted_marks (student_assignments : list Assignments.row)
  : list Assignments.row :=
  filter (fun r => Bool.eqb (Assignments.Submitted r) true) student_assignments.

(** What the assignments view shows for a student: the two values of the
    submission pie and, when some assignment was submitted, the marks that
    go into the histogram. *)
Definition assignment_view (assignments : list Assignments.row) (student_id_assign : string)
  : option ((nat * nat) * option (list Q)) :=
  let rows := student_assignments assignments student_id_assign in
  if negb (Summary.empty rows)
  then Some ((submitted rows, not_submitted rows),
             if negb (Summary.empty (submitted_marks rows))
             then Some (map Assignments.Marks (submitted_marks rows))
             else None)
  else None.

End Drilldown.

(** ** The upcoming-deadlines table (lines 319-328) *)

Module UpcomingTab.
Import Assignments.

(** The order of [sort_values('Deadline')]: ascending, NaT last. *)
Definition deadline_le (a b : row) : bool :=
  match Deadline a, Deadline b with
  | Some x, Some y => datetime_ge y x
  | _, None => true
  | None, Some _ => false
  end.

(** [sort_values('Deadline')], the sorting routine being the library's. *)
Definition sorter : Type := list row -> list row.

Definition sorts (sort_values : sorter) : Prop :=
  forall t, Permutation (sort_values t) t
            /\ StronglySorted (fun a b => deadline_le a b = true) (sort_values t).

(** The rows of [upcoming_display.head(10)]. *)
Definition upcoming_display (sort_values : sorter) (now : datetime)
           (filtered : list row) : list row :=
  Frame.head 10 (sort_values (AssignmentsTab.upcoming now filtered)).

Fixpoint insert_by_deadline (x : row) (l : list row) : list row :=
  match l with
  | [] => [x]
  | y :: t => if deadline_le x y then x :: y :: t else y :: insert_by_deadline x t
  end.

(** A sorting routine that keeps the library's promise. *)
Definition insertion_sort : sorter := fun t => fold_right insert_by_deadline [] t.

End UpcomingTab.

(** ** Tab "Remarks": distribution of remarks (lines 384-387) *)

Module Remarks.
(** A blank Remark cell is read as missing. *)
Record row : Type := {
  ID : string;
  Date : option datetime;
  Teacher : string;
  Remark : option string
}.
End Remarks.

Module RemarksTab.
Import Remarks.

Definition filtered_remarks (remarks : list row) (filtered_summary : list Summary.row)
  : list row :=
  Frame.merge ID remarks (Summary.ids filtered_summary).

(** [Series.value_counts()]: one count per distinct value that is present,
    missing cells being left out, then ordered by the library's sort on the
    counts. *)
Definition value_counts (sort_values : list (string * nat) -> list (string * nat))
           (column : list (option string)) : list (string * nat) :=
  sort_values
    (map (fun v => (v, length (filter (fun c => Frame.has_key c v) column)))
         (Frame.unique (Frame.dropna column))).

Definition remark_counts (sort_values : list (string * nat) -> list (string * nat))
           (filtered : list row) : list (string * nat) :=
  value_counts sort_values (map Remark filtered).

Fixpoint insert_by_count (x : string * nat) (l : list (string * nat))
  : list (string * nat) :=
  match l with
  | [] => [x]
  | y :: t => if (snd y <=? snd x)%nat then x :: y :: t else y :: insert_by_count x t
  end.

(** A descending sort on the counts. *)
Definition by_count_descending (l : list (string * nat)) : list (string * nat) :=
  fold_right insert_by_count [] l.

End RemarksTab.

(** ** Sample tables *)

Module Sample.

Definition student (id name cls sec gender : string) (score att sub : Q) : Summary.row :=
  {| Summary.ID := id; Summary.Name := name; Summary.Class := cls;
     Summary.Section_ := sec; Summary.Gender := gender;
     Summary.Average_Score := score; Summary.Attendance_Rate := att;
     Summary.Submission_Rate := sub |}.

Definition kumar1 : Summary.row := student "1" "A. Kumar" "10" "A" "M" 80 (9 # 10) (3 # 4).
Definition kumar2 : Summary.row := student "2" "A. Kumar" "10" "B" "F" 80 (1 # 2) 1.
Definition singh : Summary.row := student "3" "B. Singh" "11" "C" "F" (141 # 2) 1 (1 # 4).

Definition summary : list Summary.row := [kumar1; kumar2; singh].

Definition all : Sidebar.session_state :=
  {| Sidebar.selected_class := "All";
     Sidebar.selected_section := "All";
     Sidebar.selected_gender := "All" |}.

Definition class10_A : Sidebar.session_state :=
  {| Sidebar.selected_class := "10";
     Sidebar.selected_section := "A";
     Sidebar.selected_gender := "All" |}.

Definition score (id subject term : string) (s : Q) : Scores.row :=
  {| Scores.ID := id; Scores.Subject := Some subject; Scores.Term := Some term;
     Scores.Score := s |}.

Definition scores : list Scores.row :=
  [score "1" "Math" "T1" 70; score "1" "Math" "T2" 90; score "2" "Math" "T1" 50;
   score "1" "Art" "T1" 60; score "3" "Art" "T2" 100; score "9" "Art" "T2" 0].

Definition date (y m d : Z) : option datetime :=
  Some {| year := y; month := m; day := d; seconds := 0 |}.

Definition attended (id : string) (d : option datetime) (p : bool) : Attendance.row :=
  {| Attendance.ID := id; Attendance.Date := d; Attendance.Present := p |}.

(** Every observation of the cohort is a presence. *)
Definition attendance_all_present : list Attendance.row :=
  [attended "1" (date 2024 1 8) true; attended "2" (date 2024 1 8) true;
   attended "1" (date 2024 2 5) true].

Definition attendance_mixed : list Attendance.row :=
  [attended "1" (date 2024 1 8) true; attended "2" (date 2024 1 8) false;
   attended "1" (date 2024 2 5) true; attended "3" None false].

Definition assignment (id name subject : string) (d : option datetime)
           (submitted : bool) (marks : Q) : Assignments.row :=
  {| Assignments.ID := id; Assignments.Assignment := name;
     Assignments.Subject := subject; Assignments.Deadline := d;
     Assignments.Submitted := submitted; Assignments.Marks := marks |}.

(** Nobody has handed in the Art essay. *)
Definition assignments : list Assignments.row :=
  [assignment "1" "HW1" "Math" (date 2024 3 1) true 70;
   assignment "2" "HW1" "Math" (date 2024 3 1) false 0;
   assignment "1" "Essay" "Art" (date 2024 4 1) false 0].

Definition csv_assignment (id name subject deadline : string) : Assignments.csv_row :=
  {| Assignments.csv_ID := id; Assignments.csv_Assignment := name;
     Assignments.csv_Subject := subject; Assignments.csv_Deadline := deadline;
     Assignments.csv_Submitted := false; Assignments.csv_Marks := 0 |}.

Definition assignments_file : list Assignments.csv_row :=
  [csv_assignment "1" "HW1" "Math" "2024-03-01";
   csv_assignment "1" "HW2" "Math" "next week"].

(** A date parser that reads one date only. *)
Definition to_datetime (text : string) : option datetime :=
  if text =? "2024-03-01" then date 2024 3 1 else None.

Definition now : datetime := {| year := 2024; month := 2; day := 1; seconds := 0 |}.

(** The classes first appear as "11", "10". *)
Definition summary_unsorted : list Summary.row :=
  [student "7" "C. Rao" "11" "A" "F" 90 1 1; student "8" "D. Iyer" "10" "B" "M" 60 1 1].

Definition class11 : Sidebar.session_state :=
  {| Sidebar.selected_class := "11";
     Sidebar.selected_section := "All";
     Sidebar.selected_gender := "All" |}.

Definition remark (id teacher text : string) : Remarks.row :=
  {| Remarks.ID := id; Remarks.Date := date 2024 1 8;
     Remarks.Teacher := teacher; Remarks.Remark := Some text |}.

Definition remarks : list Remarks.row :=
  [remark "1" "T. Bose" "Good"; remark "2" "T. Bose" "Excellent";
   remark "3" "T. Bose" "Good"; remark "9" "T. Bose" "Good";
   {| Remarks.ID := "1"; Remarks.Date := date 2024 2 5;
      Remarks.Teacher := "T. Bose"; Remarks.Remark := None |}].


End Sample.

(** * Properties *)

(** ** Lists and Series *)

Section FrameFacts.
Context {K : Type} `{Key K}.

Lemma keq_refl (a : K) : keq a a = true.
Proof. now apply (proj2 (keq_iff a a)). Qed.

Lemma keq_false (a b : K) : keq a b = false <-> a <> b.
Proof.
  destruct (keq a b) eqn:E.
  - apply (proj1 (keq_iff _ _)) in E. split; [discriminate | intros Hn; now elim Hn].
  - split; auto. intros _ Hab. apply (proj2 (keq_iff _ _)) in Hab. congruence.
Qed.

Lemma key_dec (a b : K) : {a = b} + {a <> b}.
Proof.
  destruct (keq a b) eqn:E.
  - left. now apply keq_iff.
  - right. now apply keq_false.
Defined.

Lemma insert_sorted_perm (x : K) l : Permutation (Frame.insert_sorted x l) (x :: l).
Proof.
  induction l as [|y t IH]; simpl; auto.
  destruct (kle x y); auto.
  rewrite IH. apply perm_swap.
Qed.

Lemma sorted_perm (l : list K) : Permutation (Frame.sorted l) l.
Proof.
  induction l as [|x t IH]; simpl; auto.
  rewrite insert_sorted_perm. now constructor.
Qed.

Lemma In_sorted (y : K) l : In y (Frame.sorted l) <-> In y l.
Proof.
  split; apply Permutation_in; [|symmetry]; apply sorted_perm.
Qed.

Lemma In_unique (y : K) l : In y (Frame.unique l) <-> In y l.
Proof.
  induction l as [|x t IH]; simpl.
  - tauto.
  - rewrite filter_In, IH, negb_true_iff, keq_false.
    destruct (key_dec x y) as [->|Hne]; intuition.
Qed.

Lemma NoDup_filter {A : Type} (f : A -> bool) l : NoDup l -> NoDup (filter f l).
Proof.
  induction 1 as [|x t Hx Ht IH]; simpl; [constructor|].
  destruct (f x); auto. constructor; auto.
  rewrite filter_In. tauto.
Qed.

Lemma NoDup_unique (l : list K) : NoDup (Frame.unique l).
Proof.
  induction l as [|x t IH]; simpl; constructor.
  - rewrite filter_In, keq_refl. simpl. intros [_ E]; discriminate.
  - now apply NoDup_filter.
Qed.

Lemma In_groups {A : Type} (key : A -> K) (t : list A) (k : K) :
  In k (Frame.groups key t) <-> exists r, In r t /\ key r = k.
Proof.
  unfold Frame.groups. rewrite In_sorted, In_unique, in_map_iff.
  split; intros (r & H1 & H2); exists r; auto.
Qed.

Lemma NoDup_groups {A : Type} (key : A -> K) (t : list A) :
  NoDup (Frame.groups key t).
Proof.
  unfold Frame.groups.
  eapply Permutation_NoDup; [symmetry; apply sorted_perm | apply NoDup_unique].
Qed.

Lemma In_group {A : Type} (key : A -> K) (k : K) (t : list A) (r : A) :
  In r (Frame.group key k t) <-> In r t /\ key r = k.
Proof. unfold Frame.group. now rewrite filter_In, keq_iff. Qed.

Lemma index_None (l : list K) (x : K) : Frame.index l x = None <-> ~ In x l.
Proof.
  induction l as [|y t IH]; simpl.
  - tauto.
  - destruct (keq y x) eqn:E.
    + apply (proj1 (keq_iff _ _)) in E. split; [discriminate | tauto].
    + apply keq_false in E.
      destruct (Frame.index t x); simpl in *.
      * split; [discriminate|]. intros Hn.
        assert (Hx : ~ In x t) by tauto. apply IH in Hx. discriminate.
      * split; auto. intros _ [E'|Hx]; [congruence|].
        destruct IH as [IH _]. now apply IH.
Qed.

Lemma index_Some (l : list K) (x : K) (i : nat) :
  Frame.index l x = Some i -> nth_error l i = Some x.
Proof.
  revert i. induction l as [|y t IH]; simpl; intros i; [discriminate|].
  destruct (keq y x) eqn:E.
  - apply (proj1 (keq_iff _ _)) in E. subst. now intros [= <-].
  - destruct (Frame.index t x) as [j|]; simpl; [|discriminate].
    intros [= <-]. simpl. now apply IH.
Qed.

(** Looking a label up in a Series computed label by label. *)
Lemma lookup_tabulate {V : Type} (g : K -> V) (ks : list K) (k : K) :
  Frame.lookup k (map (fun k' => (k', g k')) ks)
  = if in_dec key_dec k ks then Some (g k) else None.
Proof.
  induction ks as [|k' t IH]; simpl; auto.
  destruct (keq k' k) eqn:E.
  - apply (proj1 (keq_iff _ _)) in E. subst.
    destruct (key_dec k k); [|congruence]. reflexivity.
  - apply keq_false in E. rewrite IH.
    destruct (key_dec k' k); [congruence|].
    destruct (in_dec key_dec k t); reflexivity.
Qed.

End FrameFacts.


Lemma filter_filter {A : Type} (f g : A -> bool) (l : list A) :
  filter g (filter f l) = filter (fun x => f x && g x) l.
Proof.
  induction l as [|x t IH]; simpl; auto.
  destruct (f x); simpl; [destruct (g x)|]; congruence.
Qed.

Lemma filter_nil_iff {A : Type} (f : A -> bool) (l : list A) :
  filter f l = [] <-> forall x, In x l -> f x = false.
Proof.
  induction l as [|x t IH]; simpl.
  - tauto.
  - destruct (f x) eqn:E.
    + split; [discriminate|]. intros Hx. specialize (Hx x (or_introl eq_refl)). congruence.
    + rewrite IH. split.
      * intros Ht y [<-|Hy]; auto.
      * intros Ht y Hy. apply Ht. now right.
Qed.

(** ** The filter engine *)

Lemma narrow_filter (field : Summary.row -> string) (selector : string)
      (table : list Summary.row) :
  Sidebar.narrow field selector table
  = filter (fun r => Sidebar.accepts selector (field r)) table.
Proof.
  unfold Sidebar.narrow, Sidebar.accepts.
  destruct (selector =? "All"); simpl.
  - induction table as [|r t IH]; simpl; congruence.
  - reflexivity.
Qed.

Lemma filtered_summary_filter (summary : list Summary.row) (st : Sidebar.session_state) :
  Sidebar.filtered_summary summary st = filter (Sidebar.survives st) summary.
Proof.
  unfold Sidebar.filtered_summary, Sidebar.survives.
  rewrite !narrow_filter, !filter_filter.
  apply filter_ext. intros r. now rewrite ?andb_assoc.
Qed.

Lemma accepts_iff (selector cell : string) :
  Sidebar.accepts selector cell = true <-> selector = "All" \/ cell = selector.
Proof.
  unfold Sidebar.accepts. rewrite orb_true_iff, !String.eqb_eq. tauto.
Qed.

Lemma survives_iff (st : Sidebar.session_state) (r : Summary.row) :
  Sidebar.survives st r = true <->
  (Sidebar.selected_class st = "All" \/ Summary.Class r = Sidebar.selected_class st) /\
  (Sidebar.selected_section st = "All" \/ Summary.Section_ r = Sidebar.selected_section st) /\
  (Sidebar.selected_gender st = "All" \/ Summary.Gender r = Sidebar.selected_gender st).
Proof.
  unfold Sidebar.survives. rewrite !andb_true_iff, !accepts_iff. tauto.
Qed.

(** C1: the cohort is the input table filtered, in input order, by the
    conjunction of the three selector predicates; hence it is included in
    the input, a row is in it exactly when it is an input row that each
    selector other than "All" matches exactly on its field, "All" accepts
    every cell, matching is case-sensitive, and a selection nothing matches
    yields the empty table. *)
Theorem filtered_summary_selects :
  forall (summary : list Summary.row) (st : Sidebar.session_state),
    Sidebar.filtered_summary summary st = filter (Sidebar.survives st) summary
    /\ incl (Sidebar.filtered_summary summary st) summary
    /\ (forall r, In r (Sidebar.filtered_summary summary st) <->
                  In r summary
                  /\ (Sidebar.selected_class st = "All"
                      \/ Summary.Class r = Sidebar.selected_class st)
                  /\ (Sidebar.selected_section st = "All"
                      \/ Summary.Section_ r = Sidebar.selected_section st)
                  /\ (Sidebar.selected_gender st = "All"
                      \/ Summary.Gender r = Sidebar.selected_gender st))
    /\ (forall cell, Sidebar.accepts "All" cell = true)
    /\ Sidebar.filtered_summary summary Sample.all = summary
    /\ Sidebar.accepts "a" "A" = false
    /\ (Sidebar.filtered_summary summary st = [] <->
        forall r, In r summary -> Sidebar.survives st r = false).
Proof.
  intros summary st.
  rewrite !filtered_summary_filter.
  split; [reflexivity|].
  split; [apply incl_filter|].
  split; [intros r; now rewrite filter_In, survives_iff|].
  split; [reflexivity|].
  split.
  - induction summary as [|r t IH]; simpl; congruence.
  - split; [reflexivity | apply filter_nil_iff].
Qed.

(** The two rows of class "10", section "A"/"B": selecting section "A"
    keeps one of them, and the gender selector "All" changes nothing. *)
Example filtered_summary_class10_A :
  Sidebar.filtered_summary Sample.summary Sample.class10_A = [Sample.kumar1].
Proof. reflexivity. Qed.

(** ** The dependent section selector *)

Lemma In_available_sections (summary : list Summary.row) (cls s : string) :
  cls <> "All" ->
  (In s (Sidebar.available_sections summary cls) <->
   s = "All" \/ exists r, In r summary /\ Summary.Class r = cls /\ Summary.Section_ r = s).
Proof.
  intros Hc. unfold Sidebar.available_sections.
  apply String.eqb_neq in Hc. rewrite Hc. simpl.
  rewrite In_sorted, In_unique, in_map_iff.
  split.
  - intros [E|(r & Hs & Hr)]; [now left|right].
    apply filter_In in Hr as [Hr Hcls]. apply String.eqb_eq in Hcls. eauto.
  - intros [E|(r & Hr & Hcls & Hs)]; [now left|right].
    exists r. split; auto. apply filter_In. split; auto.
    now apply String.eqb_eq.
Qed.

(** A section that is still on offer is kept. *)
Lemma select_section_kept (summary : list Summary.row) (cls previous : string) :
  In previous (Sidebar.available_sections summary cls) ->
  Sidebar.select_section summary cls previous = Ok previous.
Proof.
  intros Hin. unfold Sidebar.select_section, Sidebar.section_index.
  destruct (String.eqb_spec previous "All") as [->|Hne]; [reflexivity|].
  destruct (Frame.index _ previous) as [i|] eqn:E.
  - simpl. now rewrite (index_Some _ _ _ E).
  - apply index_None in E. contradiction.
Qed.

(** C2: the section options for a concrete class are "All" and the
    sections of the summary rows of that class; but when the previously
    selected section is not among them, the script does not fall back to
    "All": computing the default index of the select box raises
    ValueError. *)
Theorem change_class_stale_section :
  forall (summary : list Summary.row) (st : Sidebar.session_state) (cls : string),
    cls <> "All" ->
    ~ In (Sidebar.selected_section st) (Sidebar.available_sections summary cls) ->
    (forall s, In s (Sidebar.available_sections summary cls) <->
               s = "All" \/ exists r, In r summary /\ Summary.Class r = cls
                                     /\ Summary.Section_ r = s)
    /\ Sidebar.change_class summary st cls = ValueError.
Proof.
  intros summary st cls Hc Hstale.
  split; [intros s; now apply In_available_sections|].
  unfold Sidebar.change_class, Sidebar.select_section, Sidebar.section_index.
  destruct (String.eqb_spec (Sidebar.selected_section st) "All") as [E|Hne].
  - exfalso. apply Hstale. rewrite E. now left.
  - apply index_None in Hstale. now rewrite Hstale.
Qed.

Lemma change_class_stale_section_witness :
  "11" <> "All"
  /\ ~ In "A" (Sidebar.available_sections Sample.summary "11")
  /\ Sidebar.change_class Sample.summary Sample.class10_A "11" = ValueError.
Proof.
  assert (H1 : "11" <> "All") by discriminate.
  assert (H2 : ~ In (Sidebar.selected_section Sample.class10_A)
                    (Sidebar.available_sections Sample.summary "11")).
  { simpl. intros [E|[E|[]]]; discriminate. }
  split; [exact H1|]. split; [exact H2|].
  exact (proj2 (change_class_stale_section Sample.summary Sample.class10_A "11" H1 H2)).
Defined.

(** ** Resolving a name *)

(** C3: when several cohort rows carry the selected name, the performance
    tab offers all their IDs for an explicit choice, whereas the attendance,
    assignments and remarks tabs take the ID of the first matching row. *)
Theorem student_id_takes_first_match :
  forall (filtered_summary : list Summary.row) (name : string)
         (r1 r2 : Summary.row) (others : list Summary.row),
    Resolver.matching_students filtered_summary name = r1 :: r2 :: others ->
    Resolver.selected_id filtered_summary name
    = Resolver.SelectID (Summary.ID r1 :: Summary.ID r2 :: map Summary.ID others)
    /\ Resolver.student_id_att filtered_summary name = Ok (Summary.ID r1)
    /\ Resolver.student_id_assign filtered_summary name = Ok (Summary.ID r1)
    /\ Resolver.student_id_remark filtered_summary name = Ok (Summary.ID r1).
Proof.
  intros fs name r1 r2 others Hm.
  unfold Resolver.selected_id, Resolver.student_id_att,
    Resolver.student_id_assign, Resolver.student_id_remark.
  rewrite Hm. simpl. auto.
Qed.

Lemma student_id_takes_first_match_witness :
  Resolver.selected_id Sample.summary "A. Kumar" = Resolver.SelectID ["1"; "2"]
  /\ Resolver.student_id_att Sample.summary "A. Kumar" = Ok "1"
  /\ Resolver.student_id_assign Sample.summary "A. Kumar" = Ok "1"
  /\ Resolver.student_id_remark Sample.summary "A. Kumar" = Ok "1".
Proof.
  exact (student_id_takes_first_match Sample.summary "A. Kumar"
           Sample.kumar1 Sample.kumar2 [] eq_refl).
Defined.

(** The performance tab on a name carried by one row, and by none. *)
Lemma selected_id_unique (filtered_summary : list Summary.row) (name : string)
      (r : Summary.row) :
  Resolver.matching_students filtered_summary name = [r] ->
  Resolver.selected_id filtered_summary name = Resolver.SelectedID (Summary.ID r).
Proof. unfold Resolver.selected_id. now intros ->. Qed.

Lemma selected_id_absent (filtered_summary : list Summary.row) (name : string) :
  (forall r, In r filtered_summary -> Summary.Name r <> name) ->
  Resolver.selected_id filtered_summary name = Resolver.NoStudentFound.
Proof.
  intros Habs. unfold Resolver.selected_id, Resolver.matching_students.
  replace (filter _ filtered_summary) with (@nil Summary.row); [reflexivity|].
  symmetry. apply filter_nil_iff. intros r Hr.
  apply String.eqb_neq. auto.
Qed.

(** The three other tabs index the empty column when no row matches. *)
Lemma student_id_absent (filtered_summary : list Summary.row) (name : string) :
  (forall r, In r filtered_summary -> Summary.Name r <> name) ->
  Resolver.student_id_att filtered_summary name = IndexError
  /\ Resolver.student_id_assign filtered_summary name = IndexError
  /\ Resolver.student_id_remark filtered_summary name = IndexError.
Proof.
  intros Habs.
  unfold Resolver.student_id_att, Resolver.student_id_assign,
    Resolver.student_id_remark, Resolver.matching_students.
  replace (filter _ filtered_summary) with (@nil Summary.row); [auto|].
  symmetry. apply filter_nil_iff. intros r Hr.
  apply String.eqb_neq. auto.
Qed.

(** ** Assignment completion *)

Lemma counts_groupby_size {A : Type} (key : A -> string) (t : list A) :
  Frame.counts (Frame.groupby_size key t)
  = map (fun k => (k, Num (Frame.of_nat (length (Frame.group key k t)))))
        (Frame.groups key t).
Proof. unfold Frame.counts, Frame.groupby_size. now rewrite map_map. Qed.

Lemma map_fst_tabulate {K V : Type} (g : K -> V) (ks : list K) :
  map fst (map (fun k => (k, g k)) ks) = ks.
Proof. rewrite map_map. simpl. apply map_id. Qed.

Lemma of_nat_nonzero (n : nat) : n <> 0%nat -> Qeq_bool (Frame.of_nat n) 0 = false.
Proof.
  intros Hn. destruct (Qeq_bool (Frame.of_nat n) 0) eqn:E; auto.
  apply Qeq_bool_eq in E. unfold Qeq, Frame.of_nat in E. simpl in E. lia.
Qed.

(** The cell the script computes for a subject of the joined table. *)
Lemma completion_rate_cell (filtered : list Assignments.row) (s : string) (c : cell) :
  In (s, c) (AssignmentsTab.completion_rate filtered) <->
  In s (map Assignments.Subject filtered) /\
  c = Frame.cell_mul
        (if in_dec key_dec s
              (Frame.groups Assignments.Subject
                 (filter (fun r => Bool.eqb (Assignments.Submitted r) true) filtered))
         then Frame.fdiv
                (Frame.of_nat
                   (length (Frame.group Assignments.Subject s
                      (filter (fun r => Bool.eqb (Assignments.Submitted r) true) filtered))))
                (Frame.of_nat (length (Frame.group Assignments.Subject s filtered)))
         else NaN)
        100.
Proof.
  unfold AssignmentsTab.completion_rate, Frame.series_mul, Frame.series_op.
  rewrite !counts_groupby_size, !map_fst_tabulate, map_map. simpl.
  rewrite in_map_iff. split.
  - intros (k & [= -> <-] & Hk).
    rewrite In_sorted, In_unique, in_app_iff, !In_groups in Hk.
    rewrite !lookup_tabulate. split.
    + rewrite in_map_iff. destruct Hk as [(r & Hr & E)|(r & Hr & E)].
      * apply filter_In in Hr as [Hr _]. eauto.
      * eauto.
    + destruct (in_dec key_dec s _) as [Hc|Hc]; [|reflexivity].
      destruct (in_dec key_dec s _) as [Ht|Ht]; [reflexivity|].
      exfalso. apply Ht. apply In_groups in Hc as (r & Hr & E).
      apply filter_In in Hr as [Hr _]. apply In_groups. eauto.
  - intros [Hs ->]. exists s. split.
    + rewrite !lookup_tabulate. f_equal.
      destruct (in_dec key_dec s _) as [Hc|Hc]; [|reflexivity].
      destruct (in_dec key_dec s _) as [Ht|Ht]; [reflexivity|].
      exfalso. apply Ht. apply In_groups in Hc as (r & Hr & E).
      apply filter_In in Hr as [Hr _]. apply In_groups. eauto.
    + rewrite In_sorted, In_unique, in_app_iff, !In_groups.
      right. apply in_map_iff in Hs as (r & E & Hr). eauto.
Qed.

(** A subject with a submitted row gets the percentage of its submitted
    rows. *)
Lemma completion_rate_submitted (filtered : list Assignments.row) (r : Assignments.row) :
  In r filtered -> Assignments.Submitted r = true ->
  In (Assignments.Subject r,
      Num (Frame.of_nat
             (length (Frame.group Assignments.Subject (Assignments.Subject r)
                (filter (fun r => Bool.eqb (Assignments.Submitted r) true) filtered)))
           / Frame.of_nat
               (length (Frame.group Assignments.Subject (Assignments.Subject r) filtered))
           * 100)%Q)
     (AssignmentsTab.completion_rate filtered).
Proof.
  intros Hr Hs. apply completion_rate_cell. split.
  - now apply in_map.
  - destruct (in_dec key_dec _ _) as [Hc|Hc].
    + unfold Frame.fdiv. rewrite of_nat_nonzero; [reflexivity|].
      assert (Hin : In r (Frame.group Assignments.Subject (Assignments.Subject r) filtered))
        by (apply In_group; auto).
      destruct (Frame.group _ _ filtered); [destruct Hin | discriminate].
    + exfalso. apply Hc. apply In_groups. exists r. split; auto.
      apply filter_In. split; auto. now rewrite Hs.
Qed.

(** C4: a subject that has joined assignment rows, none of them submitted,
    is reported with the cell NaN and with no other cell: the series of
    submitted counts has no label for it, and the division of the two
    series fills the missing side with NaN.  The claim asks for 0 there. *)
Theorem completion_rate_none_submitted :
  forall (filtered : list Assignments.row) (s : string),
    In s (map Assignments.Subject filtered) ->
    (forall r, In r filtered -> Assignments.Subject r = s ->
               Assignments.Submitted r = false) ->
    In (s, NaN) (AssignmentsTab.completion_rate filtered)
    /\ forall c, In (s, c) (AssignmentsTab.completion_rate filtered) -> c = NaN.
Proof.
  intros filtered s Hs Hnone.
  assert (Hc : ~ In s (Frame.groups Assignments.Subject
                         (filter (fun r => Bool.eqb (Assignments.Submitted r) true)
                                 filtered))).
  { rewrite In_groups. intros (r & Hr & E).
    apply filter_In in Hr as [Hr Hsub].
    rewrite (Hnone r Hr E) in Hsub. discriminate. }
  split.
  - apply completion_rate_cell. split; auto.
    destruct (in_dec key_dec s _); [contradiction | reflexivity].
  - intros c Hin. apply completion_rate_cell in Hin as [_ ->].
    destruct (in_dec key_dec s _); [contradiction | reflexivity].
Qed.

Lemma completion_rate_none_submitted_witness :
  AssignmentsTab.completion_rate
    (AssignmentsTab.filtered_assignments Sample.assignments Sample.summary)
  = [("Art", NaN); ("Math", Num (100 # 2))]
  /\ In ("Art", NaN)
        (AssignmentsTab.completion_rate
           (AssignmentsTab.filtered_assignments Sample.assignments Sample.summary)).
Proof.
  split; [reflexivity|].
  refine (proj1 (completion_rate_none_submitted
            (AssignmentsTab.filtered_assignments Sample.assignments Sample.summary)
            "Art" _ _)).
  - simpl. auto.
  - simpl. intros r [<-|[<-|[<-|[]]]]; simpl; intros E; try reflexivity; discriminate.
Defined.

(** ** Upcoming deadlines *)

(** C10: an assignment line whose deadline text the date parser rejects is
    absent from the upcoming-deadlines view, and every row of the view has
    a parsed deadline that is not before the current time. *)
Theorem upcoming_excludes_unparsed :
  forall (to_datetime : string -> option datetime) (now : datetime)
         (file : list Assignments.csv_row) (filtered_summary : list Summary.row)
         (line : Assignments.csv_row),
    to_datetime (Assignments.csv_Deadline line) = None ->
    ~ In (Loader.coerce to_datetime line)
         (AssignmentsTab.upcoming_view to_datetime now file filtered_summary)
    /\ forall r, In r (AssignmentsTab.upcoming_view to_datetime now file filtered_summary) ->
                 exists d, Assignments.Deadline r = Some d /\ datetime_ge d now = true.
Proof.
  intros to_datetime now file fs line Hbad.
  unfold AssignmentsTab.upcoming_view, AssignmentsTab.upcoming. split.
  - rewrite filter_In. intros [_ Hge].
    simpl in Hge. rewrite Hbad in Hge. discriminate.
  - intros r Hr. apply filter_In in Hr as [_ Hge].
    destruct (Assignments.Deadline r) as [d|]; [eauto | discriminate].
Qed.

Lemma upcoming_excludes_unparsed_witness :
  Sample.to_datetime "next week" = None
  /\ ~ In (Loader.coerce Sample.to_datetime
             (Sample.csv_assignment "1" "HW2" "Math" "next week"))
          (AssignmentsTab.upcoming_view Sample.to_datetime Sample.now
             Sample.assignments_file Sample.summary).
Proof.
  split; [reflexivity|].
  exact (proj1 (upcoming_excludes_unparsed Sample.to_datetime Sample.now
                  Sample.assignments_file Sample.summary
                  (Sample.csv_assignment "1" "HW2" "Math" "next week") eq_refl)).
Defined.

(** ** Overview metrics *)








(** ** Monthly attendance trend *)

Lemma In_keyed (t : list Attendance.row) (k : AttendanceTab.month_label * bool) :
  In k (AttendanceTab.keyed t) <->
  exists r, In r t /\ AttendanceTab.Month r = Some (fst k) /\ Attendance.Present r = snd k.
Proof.
  unfold AttendanceTab.keyed. rewrite in_flat_map. split.
  - intros (r & Hr & Hk). exists r. split; auto.
    destruct (AttendanceTab.Month r) as [m|]; [|destruct Hk].
    destruct Hk as [<-|[]]. auto.
  - intros (r & Hr & Hm & Hp). exists r. split; auto.
    rewrite Hm. left. destruct k; simpl in *. now subst.
Qed.

(** The columns of the unstacked table are the values of Present that
    occur among the dated rows. *)
Lemma In_columns (t : list Attendance.row) (c : bool) :
  In c (AttendanceTab.columns
          (AttendanceTab.unstack_fillna (Frame.groupby_size (fun k => k) (AttendanceTab.keyed t))))
  <-> exists r m, In r t /\ AttendanceTab.Month r = Some m /\ Attendance.Present r = c.
Proof.
  simpl. rewrite In_sorted, In_unique, in_map_iff. split.
  - intros (e & <- & He). unfold Frame.groupby_size in He.
    apply in_map_iff in He as (k & <- & Hk). simpl.
    apply In_groups in Hk as (k' & Hk' & ->).
    apply In_keyed in Hk' as (r & Hr & Hm & Hp). eauto.
  - intros (r & m & Hr & Hm & Hp).
    exists ((m, c), length (Frame.group (fun k => k) (m, c) (AttendanceTab.keyed t))).
    split; [reflexivity|].
    unfold Frame.groupby_size. apply in_map_iff. exists (m, c). split; [reflexivity|].
    apply In_groups. exists (m, c). split; [|reflexivity].
    apply In_keyed. exists r. simpl. auto.
Qed.

(** C7: when every attendance row joined to the cohort is a presence, the
    unstacked table has no column for absences and the script raises
    KeyError on it, although the claim says the computation never
    raises. *)
Theorem monthly_trend_all_present :
  forall (attendance : list Attendance.row) (filtered_summary : list Summary.row),
    AttendanceTab.filtered_attendance attendance filtered_summary <> [] ->
    (forall r, In r (AttendanceTab.filtered_attendance attendance filtered_summary) ->
               Attendance.Present r = true) ->
    AttendanceTab.monthly_trend attendance filtered_summary = KeyError.
Proof.
  intros attendance fs Hne Hall.
  unfold AttendanceTab.monthly_trend.
  destruct (AttendanceTab.filtered_attendance attendance fs) as [|r0 t0] eqn:Ef;
    [congruence|].
  simpl Summary.empty. simpl negb. cbv iota.
  unfold AttendanceTab.Attendance_Rate.
  set (df := AttendanceTab.unstack_fillna _).
  assert (Hno : AttendanceTab.column df false = KeyError).
  { unfold AttendanceTab.column.
    destruct (Frame.index (AttendanceTab.columns df) false) as [i|] eqn:E; auto.
    assert (Hin : In false (AttendanceTab.columns df)).
    { apply index_Some in E. eapply nth_error_In; eauto. }
    apply In_columns in Hin as (r & m & Hr & _ & Hp).
    rewrite (Hall r Hr) in Hp. discriminate. }
  unfold AttendanceTab.column at 1 2.
  destruct (Frame.index (AttendanceTab.columns df) true); simpl; [|reflexivity].
  now rewrite Hno.
Qed.

Lemma monthly_trend_all_present_witness :
  AttendanceTab.monthly_trend Sample.attendance_all_present Sample.summary = KeyError.
Proof.
  refine (monthly_trend_all_present Sample.attendance_all_present Sample.summary _ _).
  - discriminate.
  - simpl. intros r [<-|[<-|[<-|[]]]]; reflexivity.
Defined.

(** With presences and absences both on record the trend is computed: one
    rate per month that has a dated observation; the row without a date
    belongs to no month. *)
Example monthly_trend_mixed :
  AttendanceTab.monthly_trend Sample.attendance_mixed Sample.summary
  = Ok [((2024, 1)%Z, Num (1 # 2)); ((2024, 2)%Z, Num 1)].
Proof. reflexivity. Qed.

(** When presences and absences both occur, every reported month has a
    dated observation behind it and its rate lies between 0 and 1. *)

Lemma combine_tabulate {A B : Type} (g : A -> B) (l : list A) :
  combine l (map g l) = map (fun x => (x, g x)) l.
Proof. induction l as [|x t IH]; simpl; congruence. Qed.

Lemma nth_index_map {B : Type} (g : bool -> B) (cols : list bool) (c : bool) (i : nat)
      (d : B) :
  Frame.index cols c = Some i -> nth i (map g cols) d = g c.
Proof.
  intros E. apply index_Some in E.
  apply nth_error_nth. now rewrite nth_error_map, E.
Qed.

Lemma In_months (t : list Attendance.row) (m : AttendanceTab.month_label) :
  In m (AttendanceTab.index
          (AttendanceTab.unstack_fillna (Frame.groupby_size (fun k => k) (AttendanceTab.keyed t))))
  <-> exists r, In r t /\ AttendanceTab.Month r = Some m.
Proof.
  simpl. rewrite In_sorted, In_unique, in_map_iff. split.
  - intros (e & <- & He). unfold Frame.groupby_size in He.
    apply in_map_iff in He as (k & <- & Hk). simpl.
    apply In_groups in Hk as (k' & Hk' & ->).
    apply In_keyed in Hk' as (r & Hr & Hm & _). eauto.
  - intros (r & Hr & Hm).
    set (k := (m, Attendance.Present r)).
    exists (k, length (Frame.group (fun k => k) k (AttendanceTab.keyed t))).
    split; [reflexivity|].
    unfold Frame.groupby_size. apply in_map_iff. exists k. split; [reflexivity|].
    apply In_groups. exists k. split; [|reflexivity].
    apply In_keyed. exists r. simpl. auto.
Qed.

(** A column of the unstacked table holds, month by month, the number of
    dated rows with that value of Present. *)
Lemma column_counts (t : list Attendance.row) (c : bool)
      (s : list (AttendanceTab.month_label * cell)) :
  let df := AttendanceTab.unstack_fillna
              (Frame.groupby_size (fun k => k) (AttendanceTab.keyed t)) in
  AttendanceTab.column df c = Ok s ->
  s = map (fun m => (m, Num (Frame.of_nat
                               (length (Frame.group (fun k => k) (m, c)
                                          (AttendanceTab.keyed t))))))
          (AttendanceTab.index df).
Proof.
  intros df. unfold AttendanceTab.column.
  destruct (Frame.index (AttendanceTab.columns df) c) as [i|] eqn:E; [|discriminate].
  intros [= <-]. subst df. simpl in *.
  rewrite map_map, combine_tabulate. apply map_ext. intros m. f_equal.
  rewrite (nth_index_map _ _ c i NaN E).
  unfold Frame.groupby_size. rewrite lookup_tabulate.
  destruct (in_dec key_dec (m, c) _) as [Hin|Hout]; [reflexivity|].
  destruct (Frame.group (fun k => k) (m, c) (AttendanceTab.keyed t)) as [|k g] eqn:Eg;
    [reflexivity|].
  exfalso. apply Hout. apply In_groups.
  assert (Hk : In k (Frame.group (fun k => k) (m, c) (AttendanceTab.keyed t)))
    by (rewrite Eg; now left).
  apply In_group in Hk as [Hk ->]. eauto.
Qed.

(** Combining two Series that are given label by label. *)
Lemma series_op_tabulate {K : Type} `{Key K} (op : cell -> cell -> cell)
      (F G : K -> cell) (l1 l2 : list K) (k : K) (c : cell) :
  (forall x, In x l1 <-> In x l2) ->
  In (k, c) (Frame.series_op op (map (fun x => (x, F x)) l1) (map (fun x => (x, G x)) l2))
  <-> In k l1 /\ c = op (F k) (G k).
Proof.
  intros Hl. unfold Frame.series_op.
  rewrite !map_fst_tabulate, in_map_iff. split.
  - intros (x & [= -> <-] & Hx).
    rewrite In_sorted, In_unique, in_app_iff, <- Hl in Hx.
    assert (H1 : In k l1) by tauto.
    rewrite !lookup_tabulate.
    destruct (in_dec key_dec k l1); [|contradiction].
    destruct (in_dec key_dec k l2) as [|Hn]; [auto|].
    exfalso. apply Hn. now apply Hl.
  - intros [H1 ->]. exists k. split.
    + rewrite !lookup_tabulate.
      destruct (in_dec key_dec k l1); [|contradiction].
      destruct (in_dec key_dec k l2) as [|Hn]; [auto|].
      exfalso. apply Hn. now apply Hl.
    + rewrite In_sorted, In_unique, in_app_iff. now left.
Qed.

Lemma series_op_labels {K : Type} `{Key K} (op : cell -> cell -> cell)
      (F G : K -> cell) (l1 l2 : list K) :
  (forall x, In x l1 <-> In x l2) ->
  Frame.series_op op (map (fun x => (x, F x)) l1) (map (fun x => (x, G x)) l2)
  = map (fun x => (x, op (F x) (G x))) (Frame.sorted (Frame.unique (l1 ++ l2))).
Proof.
  intros Hl. unfold Frame.series_op.
  rewrite !map_fst_tabulate. apply map_ext_in. intros k Hk.
  rewrite In_sorted, In_unique, in_app_iff, <- Hl in Hk.
  assert (H1 : In k l1) by tauto.
  rewrite !lookup_tabulate.
  destruct (in_dec key_dec k l1); [|contradiction].
  destruct (in_dec key_dec k l2) as [|Hn]; [auto|].
  exfalso. apply Hn. now apply Hl.
Qed.

Lemma of_nat_nonneg (n : nat) : (0 <= Frame.of_nat n)%Q.
Proof. unfold Frame.of_nat, Qle. simpl. lia. Qed.

Lemma of_nat_pos (n : nat) : (0 < n)%nat -> (0 < Frame.of_nat n)%Q.
Proof. unfold Frame.of_nat, Qlt. simpl. lia. Qed.

Lemma rate_bounds (x y : nat) :
  (0 < x + y)%nat ->
  exists q, Frame.cell_div (Num (Frame.of_nat x))
              (Frame.cell_add (Num (Frame.of_nat x)) (Num (Frame.of_nat y))) = Num q
            /\ (0 <= q <= 1)%Q.
Proof.
  intros Hpos. simpl. unfold Frame.fdiv.
  assert (Hsum : (0 < Frame.of_nat x + Frame.of_nat y)%Q).
  { destruct x as [|x].
    - rewrite Qplus_0_l. apply of_nat_pos. lia.
    - apply Qlt_le_trans with (Frame.of_nat (S x)); [apply of_nat_pos; lia|].
      rewrite <- (Qplus_0_r (Frame.of_nat (S x))) at 1.
      apply Qplus_le_r. apply of_nat_nonneg. }
  destruct (Qeq_bool (Frame.of_nat x + Frame.of_nat y) 0) eqn:E.
  - apply Qeq_bool_eq in E. rewrite E in Hsum. now apply Qlt_irrefl in Hsum.
  - eexists. split; [reflexivity|]. split.
    + apply Qle_shift_div_l; auto. rewrite Qmult_0_l. apply of_nat_nonneg.
    + apply Qle_shift_div_r; auto. rewrite Qmult_1_l.
      rewrite <- (Qplus_0_r (Frame.of_nat x)) at 1.
      apply Qplus_le_r. apply of_nat_nonneg.
Qed.

Lemma Attendance_Rate_bounds (filtered : list Attendance.row)
      (trend : list (AttendanceTab.month_label * cell))
      (m : AttendanceTab.month_label) (c : cell) :
  AttendanceTab.Attendance_Rate filtered = Ok trend ->
  In (m, c) trend ->
  (exists r, In r filtered /\ AttendanceTab.Month r = Some m)
  /\ exists q, c = Num q /\ (0 <= q <= 1)%Q.
Proof.
  unfold AttendanceTab.Attendance_Rate.
  set (df := AttendanceTab.unstack_fillna _).
  destruct (AttendanceTab.column df true) as [present| | |] eqn:Ep; try discriminate.
  simpl. destruct (AttendanceTab.column df false) as [absent| | |] eqn:Ea;
    try discriminate.
  simpl. intros [= <-] Hin.
  apply column_counts in Ep, Ea. fold df in Ep, Ea. subst present absent.
  rewrite (series_op_labels Frame.cell_add) in Hin by tauto.
  apply series_op_tabulate in Hin.
  2:{ intros x. rewrite In_sorted, In_unique, in_app_iff. tauto. }
  destruct Hin as [Hm ->].
  apply In_months in Hm as (r & Hr & Hmonth).
  split; [eauto|].
  destruct (rate_bounds
              (length (Frame.group (fun k => k) (m, true) (AttendanceTab.keyed filtered)))
              (length (Frame.group (fun k => k) (m, false) (AttendanceTab.keyed filtered))))
    as (q & Eq & Hq).
  - assert (Hk : In (m, Attendance.Present r) (AttendanceTab.keyed filtered)).
    { apply In_keyed. exists r. simpl. auto. }
    assert (Hg : In (m, Attendance.Present r)
                    (Frame.group (fun k => k) (m, Attendance.Present r)
                                 (AttendanceTab.keyed filtered))).
    { apply In_group. auto. }
    destruct (Attendance.Present r);
      destruct (Frame.group _ _ (AttendanceTab.keyed filtered)); simpl in *;
      try contradiction; lia.
  - exists q. split; [exact Eq | exact Hq].
Qed.

(** ** Ranking *)

Lemma in_order_b_iff (by_ : Summary.row -> Q) (ascending : bool) (a b : Summary.row) :
  Ranking.in_order_b by_ ascending a b = true <-> Ranking.in_order by_ ascending a b.
Proof.
  unfold Ranking.in_order_b, Ranking.in_order.
  destruct ascending; apply Qle_bool_iff.
Qed.

Lemma in_order_total (by_ : Summary.row -> Q) (ascending : bool) (a b : Summary.row) :
  Ranking.in_order_b by_ ascending a b = false -> Ranking.in_order by_ ascending b a.
Proof.
  intros E.
  assert (Hn : ~ Ranking.in_order by_ ascending a b).
  { rewrite <- in_order_b_iff. congruence. }
  destruct ascending; unfold Ranking.in_order in *; apply Qlt_le_weak;
    apply Qnot_le_lt; exact Hn.
Qed.

Lemma in_order_trans (by_ : Summary.row -> Q) (ascending : bool) (a b c : Summary.row) :
  Ranking.in_order by_ ascending a b -> Ranking.in_order by_ ascending b c ->
  Ranking.in_order by_ ascending a c.
Proof.
  unfold Ranking.in_order. destruct ascending; intros H1 H2.
  - eapply Qle_trans; eauto.
  - eapply Qle_trans; eauto.
Qed.

Lemma insert_row_perm by_ ascending (x : Summary.row) (l : list Summary.row) :
  Permutation (Ranking.insert_row by_ ascending x l) (x :: l).
Proof.
  induction l as [|y t IH]; simpl; auto.
  destruct (Ranking.in_order_b by_ ascending x y); auto.
  rewrite IH. apply perm_swap.
Qed.

Lemma insert_row_sorted by_ ascending (x : Summary.row) (l : list Summary.row) :
  StronglySorted (Ranking.in_order by_ ascending) l ->
  StronglySorted (Ranking.in_order by_ ascending) (Ranking.insert_row by_ ascending x l).
Proof.
  induction 1 as [|y t Ht IH Hy]; simpl.
  - constructor; constructor.
  - destruct (Ranking.in_order_b by_ ascending x y) eqn:E.
    + apply in_order_b_iff in E.
      constructor; [constructor; assumption|].
      constructor; auto.
      eapply Forall_impl; [|exact Hy].
      intros z Hz. eapply in_order_trans; eauto.
    + apply in_order_total in E.
      constructor; auto.
      eapply Permutation_Forall; [symmetry; apply insert_row_perm|].
      constructor; auto.
Qed.

Lemma insertion_sort_sorts : Ranking.sorts Ranking.insertion_sort.
Proof.
  intros by_ ascending t. unfold Ranking.insertion_sort.
  induction t as [|x t [IHp IHs]]; simpl.
  - split; constructor.
  - split.
    + rewrite insert_row_perm. now constructor.
    + now apply insert_row_sorted.
Qed.

Lemma StronglySorted_firstn {A : Type} (R : A -> A -> Prop) (n : nat) (l : list A) :
  StronglySorted R l -> StronglySorted R (firstn n l).
Proof.
  intros Hs. revert n. induction Hs as [|x t Ht IH Hx]; intros [|n]; simpl;
    try constructor; auto.
  apply Forall_forall. intros y Hy.
  rewrite Forall_forall in Hx. apply Hx.
  rewrite <- (firstn_skipn n t). apply in_or_app. now left.
Qed.

(** Whatever sorting routine the library runs, a ranked list is the
    beginning of a rearrangement of the cohort that is in the order of the
    field: it holds min(n, cohort size) rows, it is in order, and the rows
    it leaves out come after all the rows it lists. *)
Theorem ranked_is_sorted_prefix :
  forall (sort_values : Ranking.sorter) (by_ : Summary.row -> Q) (ascending : bool)
         (n : nat) (cohort : list Summary.row),
    Ranking.sorts sort_values ->
    exists rest,
      Permutation (Ranking.ranked sort_values by_ ascending n cohort ++ rest)%list cohort
      /\ StronglySorted (Ranking.in_order by_ ascending)
                        (Ranking.ranked sort_values by_ ascending n cohort ++ rest)%list
      /\ length (Ranking.ranked sort_values by_ ascending n cohort)
         = Nat.min n (length cohort)
      /\ forall a b, In a (Ranking.ranked sort_values by_ ascending n cohort) ->
                     In b rest -> Ranking.in_order by_ ascending a b.
Proof.
  intros sort_values by_ ascending n cohort Hsorts.
  destruct (Hsorts by_ ascending cohort) as [Hp Hs].
  unfold Ranking.ranked, Frame.head.
  exists (skipn n (sort_values by_ ascending cohort)).
  rewrite firstn_skipn.
  split; [exact Hp|]. split; [exact Hs|].
  split; [rewrite length_firstn; now rewrite (Permutation_length Hp)|].
  revert Hs. generalize (sort_values by_ ascending cohort) as l. clear.
  intros l Hs. revert n.
  induction Hs as [|x t Ht IH Hx]; intros n a b Ha Hb.
  - destruct n; destruct Ha.
  - destruct n as [|n]; simpl in *; [destruct Ha|].
    destruct Ha as [<-|Ha].
    + rewrite Forall_forall in Hx. apply Hx.
      rewrite <- (firstn_skipn n t). apply in_or_app. now right.
    + exact (IH n a b Ha Hb).
Qed.

Lemma ranked_is_sorted_prefix_witness :
  exists rest,
    Permutation (Ranking.ranked Ranking.insertion_sort Summary.Average_Score false 2
                                Sample.summary ++ rest)%list Sample.summary
    /\ StronglySorted (Ranking.in_order Summary.Average_Score false)
                      (Ranking.ranked Ranking.insertion_sort Summary.Average_Score false 2
                                      Sample.summary ++ rest)%list
    /\ length (Ranking.ranked Ranking.insertion_sort Summary.Average_Score false 2
                              Sample.summary) = 2%nat
    /\ forall a b, In a (Ranking.ranked Ranking.insertion_sort Summary.Average_Score
                                        false 2 Sample.summary) ->
                   In b rest -> Ranking.in_order Summary.Average_Score false a b.
Proof.
  exact (ranked_is_sorted_prefix Ranking.insertion_sort Summary.Average_Score false 2
           Sample.summary insertion_sort_sorts).
Defined.

(** With a routine that inserts each row before the first row it may
    precede, equal values stay in cohort order; whether the library's
    default routine does the same is not decided by the script. *)
Lemma tied_insert_row by_ ascending (v : Q) (x : Summary.row) (l : list Summary.row) :
  Ranking.tied by_ v (Ranking.insert_row by_ ascending x l)
  = ((if Qeq_bool (by_ x) v then [x] else []) ++ Ranking.tied by_ v l)%list.
Proof.
  unfold Ranking.tied.
  induction l as [|y t IH]; simpl.
  - destruct (Qeq_bool (by_ x) v); reflexivity.
  - destruct (Ranking.in_order_b by_ ascending x y) eqn:E; simpl.
    + destruct (Qeq_bool (by_ x) v); reflexivity.
    + rewrite IH.
      destruct (Qeq_bool (by_ y) v) eqn:Ey, (Qeq_bool (by_ x) v) eqn:Ex;
        try reflexivity.
      exfalso.
      apply Qeq_bool_eq in Ex, Ey.
      assert (Hxy : Ranking.in_order by_ ascending x y).
      { unfold Ranking.in_order. destruct ascending; rewrite Ex, Ey; apply Qle_refl. }
      apply in_order_b_iff in Hxy. congruence.
Qed.

Lemma tied_insertion_sort by_ ascending (v : Q) (t : list Summary.row) :
  Ranking.tied by_ v (Ranking.insertion_sort by_ ascending t) = Ranking.tied by_ v t.
Proof.
  unfold Ranking.insertion_sort.
  induction t as [|x t IH]; simpl; [reflexivity|].
  rewrite tied_insert_row, IH. unfold Ranking.tied. simpl.
  destruct (Qeq_bool (by_ x) v); reflexivity.
Qed.

Lemma insertion_sort_ties_in_row_order by_ ascending (n : nat) (cohort : list Summary.row) :
  Ranking.ties_in_row_order by_ cohort
    (Ranking.ranked Ranking.insertion_sort by_ ascending n cohort).
Proof.
  intros v. unfold Ranking.ranked, Frame.head.
  rewrite <- (tied_insertion_sort by_ ascending v cohort).
  exists (Ranking.tied by_ v (skipn n (Ranking.insertion_sort by_ ascending cohort))).
  unfold Ranking.tied. rewrite <- filter_app. now rewrite firstn_skipn.
Qed.

(** ** Subject and term means *)




Section GroupSums.
Context {A K : Type}.
Variable holds : A -> K -> bool.
Hypothesis holds_one : forall r k k', holds r k = true -> holds r k' = true -> k = k'.
Variable f : A -> Q.


End GroupSums.

Lemma has_key_iff {K : Type} `{Key K} (c : option K) (k : K) :
  Frame.has_key c k = true <-> c = Some k.
Proof.
  unfold Frame.has_key. destruct c as [k'|].
  - split.
    + intros E. apply (proj1 (keq_iff _ _)) in E. now subst.
    + intros [= ->]. apply keq_refl.
  - split; discriminate.
Qed.

Lemma has_key_one {K : Type} `{Key K} (c : option K) (k k' : K) :
  Frame.has_key c k = true -> Frame.has_key c k' = true -> k = k'.
Proof. rewrite !has_key_iff. congruence. Qed.

Lemma In_dropna {K : Type} (column : list (option K)) (k : K) :
  In k (Frame.dropna column) <-> In (Some k) column.
Proof.
  unfold Frame.dropna. rewrite in_flat_map. split.
  - intros ([k'|] & Hc & Hk); [|destruct Hk].
    destruct Hk as [<-|[]]. exact Hc.
  - intros Hc. exists (Some k). split; [exact Hc | now left].
Qed.





Lemma filter_map_comm {A B : Type} (p : B -> bool) (g : A -> B) (l : list A) :
  filter p (map g l) = map g (filter (fun a => p (g a)) l).
Proof.
  induction l as [|x t IH]; simpl; auto.
  destruct (p (g x)); simpl; congruence.
Qed.

Lemma group_nonempty {A K : Type} `{Key K} (key : A -> K) (t : list A) (k : K) :
  In k (Frame.groups key t) -> Frame.group key k t <> [].
Proof.
  intros Hk E. apply In_groups in Hk as (r & Hr & Ek).
  assert (Hin : In r (Frame.group key k t)) by (apply In_group; auto).
  rewrite E in Hin. destruct Hin.
Qed.







Example subject_scores_sample :
  let merged := Performance.merged_scores Sample.scores Sample.summary in
  Performance.subject_scores merged = [("Art", 160 # 2); ("Math", 210 # 3)]
  /\ Performance.term_scores merged
     = [(("Art", "T1"), 60); (("Art", "T2"), 100);
        (("Math", "T1"), 120 # 2); (("Math", "T2"), 90)]
  /\ Performance.reaggregated merged "Math" = 420 # 6.
Proof. repeat split. Qed.


(** * Further properties of the script *)

(** ** The inner join on ID *)

Lemma matches_unique_id {A : Type} (r : A) (x : string) (ids : list string) :
  NoDup ids ->
  map (fun _ : string => r) (filter (fun i => i =? x) ids)
  = if existsb (fun i => i =? x) ids then [r] else [].
Proof.
  induction 1 as [|i t Hi Ht IH]; simpl; [reflexivity|].
  destruct (String.eqb_spec i x) as [->|Hne]; simpl.
  - replace (filter (fun i => i =? x) t) with (@nil string); [reflexivity|].
    symmetry. apply filter_nil_iff. intros j Hj.
    apply String.eqb_neq. intros ->. contradiction.
  - exact IH.
Qed.

(** When no ID occurs twice in the cohort, joining a table to it keeps
    exactly the rows whose ID is a cohort ID, once each and in their order. *)
Theorem merge_unique_ids :
  forall (A : Type) (id : A -> string) (left : list A) (ids : list string),
    NoDup ids ->
    Frame.merge id left ids = filter (fun r => existsb (fun i => i =? id r) ids) left.
Proof.
  intros A id left ids Hnd. unfold Frame.merge.
  induction left as [|r t IH]; simpl; [reflexivity|].
  rewrite IH, (matches_unique_id r (id r) ids Hnd).
  destruct (existsb _ ids); reflexivity.
Qed.

Lemma merge_unique_ids_witness :
  NoDup (Summary.ids Sample.summary)
  /\ Performance.merged_scores Sample.scores Sample.summary
     = filter (fun r => existsb (fun i => i =? Scores.ID r) (Summary.ids Sample.summary))
              Sample.scores.
Proof.
  assert (Hnd : NoDup (Summary.ids Sample.summary)).
  { simpl. repeat constructor; simpl; intuition discriminate. }
  split; [exact Hnd|].
  exact (merge_unique_ids Scores.row Scores.ID Sample.scores
           (Summary.ids Sample.summary) Hnd).
Defined.



(** The scores shown for one student are the student's rows of the whole
    score table; for a cohort without repeated IDs they are the student's
    rows of the joined table when the student is in the cohort, and the
    joined table has none of them otherwise. *)
Theorem student_scores_of_cohort :
  forall (scores : list Scores.row) (filtered_summary : list Summary.row) (id : string),
    NoDup (Summary.ids filtered_summary) ->
    Drilldown.student_scores (Performance.merged_scores scores filtered_summary) id
    = if existsb (fun i => i =? id) (Summary.ids filtered_summary)
      then Drilldown.student_scores scores id
      else [].
Proof.
  intros scores fs id Hnd.
  unfold Drilldown.student_scores, Performance.merged_scores.
  rewrite (merge_unique_ids _ _ _ _ Hnd), filter_filter.
  destruct (existsb (fun i => i =? id) (Summary.ids fs)) eqn:E.
  - apply filter_ext. intros r.
    destruct (String.eqb_spec (Scores.ID r) id) as [->|Hne].
    + rewrite E. reflexivity.
    + apply andb_false_r.
  - apply filter_nil_iff. intros r _.
    destruct (String.eqb_spec (Scores.ID r) id) as [->|Hne].
    + rewrite E. reflexivity.
    + apply andb_false_r.
Qed.

Lemma student_scores_of_cohort_witness :
  Drilldown.student_scores (Performance.merged_scores Sample.scores Sample.summary) "1"
  = Drilldown.student_scores Sample.scores "1".
Proof.
  refine (student_scores_of_cohort Sample.scores Sample.summary "1" _).
  simpl. repeat constructor; simpl; intuition discriminate.
Defined.

(** ** The sidebar *)

(** Changing the class keeps the previous section when it is still on
    offer and raises ValueError otherwise; no other outcome occurs.  In
    particular a concrete section is never on offer for the class "All". *)
Theorem change_class_outcome :
  forall (summary : list Summary.row) (st : Sidebar.session_state) (cls : string),
    (Sidebar.change_class summary st cls
     = Ok {| Sidebar.selected_class := cls;
             Sidebar.selected_section := Sidebar.selected_section st;
             Sidebar.selected_gender := Sidebar.selected_gender st |}
     <-> In (Sidebar.selected_section st) (Sidebar.available_sections summary cls))
    /\ (Sidebar.change_class summary st cls = ValueError
        <-> ~ In (Sidebar.selected_section st) (Sidebar.available_sections summary cls))
    /\ (In (Sidebar.selected_section st) (Sidebar.available_sections summary "All")
        <-> Sidebar.selected_section st = "All").
Proof.
  intros summary st cls.
  assert (Hkept : In (Sidebar.selected_section st) (Sidebar.available_sections summary cls) ->
                  Sidebar.change_class summary st cls
                  = Ok {| Sidebar.selected_class := cls;
                          Sidebar.selected_section := Sidebar.selected_section st;
                          Sidebar.selected_gender := Sidebar.selected_gender st |}).
  { intros Hin. unfold Sidebar.change_class.
    now rewrite (select_section_kept _ _ _ Hin). }
  assert (Hstale : ~ In (Sidebar.selected_section st) (Sidebar.available_sections summary cls) ->
                   Sidebar.change_class summary st cls = ValueError).
  { intros Hout.
    unfold Sidebar.change_class, Sidebar.select_section, Sidebar.section_index.
    destruct (String.eqb_spec (Sidebar.selected_section st) "All") as [E|Hne].
    - exfalso. apply Hout. rewrite E. now left.
    - apply index_None in Hout. now rewrite Hout. }
  destruct (in_dec string_dec (Sidebar.selected_section st)
                   (Sidebar.available_sections summary cls)) as [Hin|Hout].
  - rewrite (Hkept Hin). repeat split; auto; try discriminate; try tauto.
    + simpl. intros [E|[]]; auto.
    + intros ->. now left.
  - rewrite (Hstale Hout). repeat split; auto; try discriminate; try tauto.
    + simpl. intros [E|[]]; auto.
    + intros ->. now left.
Qed.

(** For a class of the summary, the cohort of a class and a section (all
    genders) has a row exactly when the section is among those offered for
    the class. *)
Theorem offered_section_has_students :
  forall (summary : list Summary.row) (cls sec : string),
    cls <> "All" ->
    In cls (map Summary.Class summary) ->
    (Sidebar.filtered_summary summary
       {| Sidebar.selected_class := cls;
          Sidebar.selected_section := sec;
          Sidebar.selected_gender := "All" |} <> []
     <-> In sec (Sidebar.available_sections summary cls)).
Proof.
  intros summary cls sec Hc Hcls.
  rewrite filtered_summary_filter, (In_available_sections summary cls sec Hc).
  split.
  - intros Hne.
    destruct (filter _ summary) as [|r t] eqn:E; [congruence|].
    assert (Hr : In r (filter (Sidebar.survives
                                 {| Sidebar.selected_class := cls;
                                    Sidebar.selected_section := sec;
                                    Sidebar.selected_gender := "All" |}) summary))
      by (rewrite E; now left).
    apply filter_In in Hr as [Hr Hs]. apply survives_iff in Hs. simpl in Hs.
    destruct Hs as ([?|Hr1] & [?|Hr2] & _); try congruence; [now left|].
    right. eauto.
  - intros Hsec E.
    assert (Hrow : exists r, In r summary
                             /\ Sidebar.survives
                                  {| Sidebar.selected_class := cls;
                                     Sidebar.selected_section := sec;
                                     Sidebar.selected_gender := "All" |} r = true).
    { destruct Hsec as [->|(r & Hr & Hrc & Hrs)].
      - apply in_map_iff in Hcls as (r & Hrc & Hr). exists r. split; auto.
        apply survives_iff. simpl. auto.
      - exists r. split; auto. apply survives_iff. simpl. auto. }
    destruct Hrow as (r & Hr & Hs).
    rewrite filter_nil_iff in E. rewrite (E r Hr) in Hs. discriminate.
Qed.

Lemma offered_section_has_students_witness :
  In "B" (Sidebar.available_sections Sample.summary "10")
  /\ Sidebar.filtered_summary Sample.summary
       {| Sidebar.selected_class := "10";
          Sidebar.selected_section := "B";
          Sidebar.selected_gender := "All" |} <> [].
Proof.
  assert (H1 : "10" <> "All") by discriminate.
  assert (H2 : In "10" (map Summary.Class Sample.summary)) by (simpl; auto).
  assert (H3 : In "B" (Sidebar.available_sections Sample.summary "10"))
    by (simpl; auto).
  split; [exact H3|].
  exact (proj2 (offered_section_has_students Sample.summary "10" "B" H1 H2) H3).
Defined.

(** Setting selectors back to "All" never removes a student from the
    cohort. *)
Theorem relaxed_filters_keep_cohort :
  forall (summary : list Summary.row) (st relaxed : Sidebar.session_state),
    (Sidebar.selected_class relaxed = "All"
     \/ Sidebar.selected_class relaxed = Sidebar.selected_class st) ->
    (Sidebar.selected_section relaxed = "All"
     \/ Sidebar.selected_section relaxed = Sidebar.selected_section st) ->
    (Sidebar.selected_gender relaxed = "All"
     \/ Sidebar.selected_gender relaxed = Sidebar.selected_gender st) ->
    incl (Sidebar.filtered_summary summary st) (Sidebar.filtered_summary summary relaxed).
Proof.
  intros summary st relaxed Hc Hs Hg r.
  rewrite !filtered_summary_filter, !filter_In, !survives_iff.
  intros (Hr & H1 & H2 & H3). split; auto.
  repeat split.
  - destruct Hc as [-> | ->]; auto.
  - destruct Hs as [-> | ->]; auto.
  - destruct Hg as [-> | ->]; auto.
Qed.

Lemma relaxed_filters_keep_cohort_witness :
  incl (Sidebar.filtered_summary Sample.summary Sample.class10_A)
       (Sidebar.filtered_summary Sample.summary Sample.all).
Proof.
  apply (relaxed_filters_keep_cohort Sample.summary Sample.class10_A Sample.all);
    left; reflexivity.
Defined.

(** ** The default index of the class and gender select boxes *)

Lemma index_first_position {K : Type} `{Key K} (l : list K) (x : K) (i : nat) :
  NoDup l -> nth_error l i = Some x -> Frame.index l x = Some i.
Proof.
  intros Hnd. revert i. induction Hnd as [|y t Hy Ht IH]; intros i E.
  - destruct i; discriminate.
  - destruct i as [|i]; simpl in *.
    + injection E as ->. now rewrite keq_refl.
    + assert (Hx : In x t) by (eapply nth_error_In; eauto).
      destruct (keq y x) eqn:Eyx.
      * apply (proj1 (keq_iff _ _)) in Eyx. subst. contradiction.
      * now rewrite (IH i E).
Qed.

Lemma same_positions {A : Type} (l1 l2 : list A) :
  (forall i, nth_error l1 i = nth_error l2 i) -> l1 = l2.
Proof.
  revert l2. induction l1 as [|x t IH]; intros [|y u] Hnth.
  - reflexivity.
  - specialize (Hnth 0%nat). discriminate.
  - specialize (Hnth 0%nat). discriminate.
  - pose proof (Hnth 0%nat) as H0. simpl in H0. injection H0 as ->.
    f_equal. apply IH. intros i. exact (Hnth (S i)).
Qed.

Lemma length_options (column : list string) :
  length (Selectors.options column) = S (length (Frame.unique column)).
Proof.
  unfold Selectors.options. simpl. f_equal.
  apply Permutation_length, sorted_perm.
Qed.

(** The default index is computed, and within the options, exactly when
    the selected value is "All" or occurs in the column; otherwise the
    script raises ValueError. *)
Theorem default_index_in_bounds :
  forall (column : list string) (selected : string),
    ((selected = "All" \/ In selected column)
     <-> exists i, Selectors.default_index column selected = Ok i
                   /\ (i < length (Selectors.options column))%nat)
    /\ (Selectors.default_index column selected = ValueError
        <-> selected <> "All" /\ ~ In selected column).
Proof.
  intros column selected. unfold Selectors.default_index.
  rewrite length_options.
  destruct (String.eqb_spec selected "All") as [->|Hne].
  - split; split.
    + intros _. exists 0%nat. split; [reflexivity | lia].
    + auto.
    + discriminate.
    + intros [Hn _]. congruence.
  - destruct (Frame.index (Frame.unique column) selected) as [i|] eqn:E.
    + assert (Hi : nth_error (Frame.unique column) i = Some selected)
        by now apply index_Some.
      assert (Hin : In selected column).
      { apply In_unique. eapply nth_error_In; eauto. }
      split; split.
      * intros _. exists (i + 1)%nat. split; [reflexivity|].
        assert (i < length (Frame.unique column))%nat
          by (apply nth_error_Some; congruence).
        lia.
      * auto.
      * discriminate.
      * intros [_ Hn]. contradiction.
    + assert (Hout : ~ In selected column).
      { rewrite <- In_unique. now apply index_None. }
      split; split.
      * intros [?|?]; [congruence | contradiction].
      * intros (i & Hi & _). discriminate.
      * auto.
      * reflexivity.
Qed.

(** The options are "All" followed by the distinct values, arranged by
    the sort of the column's type (numbers as numbers, text as text); the
    index is taken in order of first appearance.  So the default index
    designates the selected value, for every value of the column, exactly
    when sorting leaves the distinct values in their order of first
    appearance. *)
Theorem default_index_designates :
  forall (column arranged : list string),
    ~ In "All" column ->
    Permutation arranged (Frame.unique column) ->
    ((forall c, In c column ->
                exists i, Selectors.default_index column c = Ok i
                          /\ nth_error ("All" :: arranged) i = Some c)
     <-> arranged = Frame.unique column).
Proof.
  intros column arranged Hall Hperm. split.
  - intros Hdes. apply same_positions. intros i.
    destruct (nth_error (Frame.unique column) i) as [c|] eqn:E.
    + assert (Hc : In c column).
      { apply In_unique. eapply nth_error_In; eauto. }
      destruct (Hdes c Hc) as (j & Hj & Hopt).
      unfold Selectors.default_index in Hj.
      destruct (String.eqb_spec c "All") as [->|_]; [contradiction|].
      rewrite (index_first_position _ _ _ (NoDup_unique column) E) in Hj.
      injection Hj as <-.
      replace (i + 1)%nat with (S i) in Hopt by lia. exact Hopt.
    + apply nth_error_None. apply nth_error_None in E.
      now rewrite (Permutation_length Hperm).
  - intros -> c Hc.
    unfold Selectors.default_index.
    destruct (String.eqb_spec c "All") as [->|_]; [contradiction|].
    destruct (Frame.index (Frame.unique column) c) as [i|] eqn:E.
    + exists (i + 1)%nat. split; [reflexivity|].
      replace (i + 1)%nat with (S i) by lia. simpl.
      now apply index_Some.
    + apply index_None in E. rewrite In_unique in E. contradiction.
Qed.

Lemma default_index_designates_witness :
  ~ In "All" (map Summary.Class Sample.summary)
  /\ exists i, Selectors.default_index (map Summary.Class Sample.summary) "11" = Ok i
               /\ nth_error ["All"; "10"; "11"] i = Some "11".
Proof.
  assert (Hall : ~ In "All" (map Summary.Class Sample.summary)).
  { simpl. intuition discriminate. }
  split; [exact Hall|].
  refine (proj2 (default_index_designates (map Summary.Class Sample.summary)
                   ["10"; "11"] Hall (Permutation_refl _))
                eq_refl "11" _).
  simpl. auto.
Defined.

(** Where the classes first appear as "11", "10", the default index for
    the selected class "11" designates the option "10". *)
Example class_index_out_of_order :
  Selectors.class_options Sample.summary_unsorted = ["All"; "10"; "11"]
  /\ Selectors.class_index Sample.summary_unsorted Sample.class11 = Ok 1%nat.
Proof. split; reflexivity. Qed.

(** ** Names offered by the student select boxes *)



(** ** Per-student counts *)

Lemma bool_sum_count {A : Type} (f : A -> bool) (l : list A) :
  Drilldown.bool_sum (map f l) = length (filter f l).
Proof.
  induction l as [|x t IH]; simpl; [reflexivity|].
  rewrite IH. destruct (f x); reflexivity.
Qed.

Lemma length_filter_split {A : Type} (f : A -> bool) (l : list A) :
  (length (filter f l) + length (filter (fun x => negb (f x)) l) = length l)%nat.
Proof.
  induction l as [|x t IH]; simpl; [reflexivity|].
  destruct (f x); simpl; lia.
Qed.

(** The attendance pie of a student shows the number of the student's rows
    marked present and the number marked absent, which add up to the
    student's rows and are not both zero; the warning replaces it exactly
    when the attendance table has no row for the student. *)
Theorem attendance_pie_counts :
  forall (attendance : list Attendance.row) (id : string),
    match Drilldown.attendance_pie attendance id with
    | Some (present, absent) =>
        present = length (filter Attendance.Present
                                 (Drilldown.student_attendance attendance id))
        /\ absent = length (filter (fun r => negb (Attendance.Present r))
                                   (Drilldown.student_attendance attendance id))
        /\ (present + absent = length (Drilldown.student_attendance attendance id))%nat
        /\ (0 < present + absent)%nat
    | None => forall r, In r attendance -> Attendance.ID r <> id
    end.
Proof.
  intros attendance id. unfold Drilldown.attendance_pie.
  destruct (Drilldown.student_attendance attendance id) as [|r0 t0] eqn:E.
  - simpl. intros r Hr Eid.
    assert (Hin : In r (Drilldown.student_attendance attendance id)).
    { apply filter_In. split; auto. now apply String.eqb_eq. }
    rewrite E in Hin. destruct Hin.
  - remember (r0 :: t0) as rows eqn:Erows.
    assert (Hlen : (0 < length rows)%nat) by (subst; simpl; lia).
    assert (Hne : Summary.empty rows = false) by (subst; reflexivity).
    rewrite Hne. cbn [negb]. cbv beta iota.
    unfold Drilldown.absent_days, Drilldown.present_days.
    rewrite bool_sum_count.
    pose proof (length_filter_split Attendance.Present rows) as Hs.
    repeat split; lia.
Qed.

(** The assignments view of a student shows the number of submitted and
    of unsubmitted assignments, which add up to the student's rows; the
    marks histogram is built from the marks of the student's submitted
    rows, in table order, and is replaced by a notice exactly when nothing
    was submitted. *)
Theorem assignment_view_counts :
  forall (assignments : list Assignments.row) (id : string),
    match Drilldown.assignment_view assignments id with
    | Some ((done, open), marks) =>
        done = length (Drilldown.submitted_marks
                         (Drilldown.student_assignments assignments id))
        /\ open = length (filter (fun r => negb (Assignments.Submitted r))
                                 (Drilldown.student_assignments assignments id))
        /\ (done + open = length (Drilldown.student_assignments assignments id))%nat
        /\ (0 < done + open)%nat
        /\ match marks with
           | Some ms =>
               ms = map Assignments.Marks
                        (filter (fun r => Assignments.Submitted r)
                                (filter (fun r => Assignments.ID r =? id) assignments))
               /\ length ms = done /\ (0 < done)%nat
           | None => done = 0%nat
           end
    | None => forall r, In r assignments -> Assignments.ID r <> id
    end.
Proof.
  intros assignments id. unfold Drilldown.assignment_view.
  destruct (Drilldown.student_assignments assignments id) as [|r0 t0] eqn:E.
  - simpl. intros r Hr Eid.
    assert (Hin : In r (Drilldown.student_assignments assignments id)).
    { apply filter_In. split; auto. now apply String.eqb_eq. }
    rewrite E in Hin. destruct Hin.
  - set (rows := r0 :: t0).
    assert (Hsub : Drilldown.submitted_marks rows = filter Assignments.Submitted rows).
    { unfold Drilldown.submitted_marks. apply filter_ext. intros r.
      now destruct (Assignments.Submitted r). }
    assert (Hdone : Drilldown.submitted rows = length (Drilldown.submitted_marks rows)).
    { unfold Drilldown.submitted. now rewrite bool_sum_count, Hsub. }
    pose proof (length_filter_split Assignments.Submitted rows) as Hs.
    rewrite <- Hsub in Hs.
    assert (Hlen : length rows = S (length t0)) by reflexivity.
    unfold Drilldown.not_submitted.
    cbn [Summary.empty negb rows]. fold rows.
    rewrite Hdone.
    repeat split; try lia.
    destruct (Drilldown.submitted_marks rows) as [|m ms] eqn:Em; simpl.
    + reflexivity.
    + split; [|split; [now rewrite length_map | lia]].
      change (map Assignments.Marks (m :: ms)
              = map Assignments.Marks
                    (filter Assignments.Submitted
                            (Drilldown.student_assignments assignments id))).
      rewrite E. fold rows. now rewrite <- Hsub.
Qed.

(** ** Completion rates that are reported *)

Lemma length_filter_filter {A : Type} (f g : A -> bool) (l : list A) :
  (length (filter f (filter g l)) <= length (filter f l))%nat.
Proof.
  induction l as [|x t IH]; simpl; [lia|].
  destruct (g x); simpl; destruct (f x); simpl; lia.
Qed.

Lemma of_nat_le (a b : nat) : (a <= b)%nat -> (Frame.of_nat a <= Frame.of_nat b)%Q.
Proof. intros Hab. unfold Frame.of_nat, Qle. simpl. lia. Qed.

Lemma percentage_bounds (a b : nat) :
  (0 < a)%nat -> (a <= b)%nat ->
  (0 < Frame.of_nat a / Frame.of_nat b * 100 /\ Frame.of_nat a / Frame.of_nat b * 100 <= 100)%Q.
Proof.
  intros Ha Hab.
  assert (Hb : (0 < Frame.of_nat b)%Q) by (apply of_nat_pos; lia).
  assert (Hpos : (0 < Frame.of_nat a / Frame.of_nat b)%Q).
  { apply Qlt_shift_div_l; auto. rewrite Qmult_0_l. apply of_nat_pos. lia. }
  assert (Hone : (Frame.of_nat a / Frame.of_nat b <= 1)%Q).
  { apply Qle_shift_div_r; auto. rewrite Qmult_1_l. now apply of_nat_le. }
  split.
  - apply Qmult_lt_0_compat; auto. reflexivity.
  - rewrite <- (Qmult_1_l 100) at 2.
    apply Qmult_le_compat_r; auto. discriminate.
Qed.

(** Every completion rate the script reports is NaN or a percentage above
    0 and at most 100: no subject is reported with rate 0, and no division
    by zero occurs. *)
Theorem completion_rate_range :
  forall (filtered : list Assignments.row) (s : string) (c : cell),
    In (s, c) (AssignmentsTab.completion_rate filtered) ->
    c = NaN \/ exists q, c = Num q /\ (0 < q)%Q /\ (q <= 100)%Q.
Proof.
  intros filtered s c Hin.
  apply completion_rate_cell in Hin as [Hs ->].
  destruct (in_dec key_dec s _) as [Hc|Hc]; [|now left].
  right.
  set (done := length (Frame.group Assignments.Subject s
                 (filter (fun r => Bool.eqb (Assignments.Submitted r) true) filtered))).
  set (total := length (Frame.group Assignments.Subject s filtered)).
  assert (Hdone : (0 < done)%nat).
  { pose proof (group_nonempty _ _ _ Hc) as Hne. unfold done.
    destruct (Frame.group Assignments.Subject s _); [congruence | simpl; lia]. }
  assert (Hle : (done <= total)%nat).
  { unfold done, total, Frame.group. apply length_filter_filter. }
  unfold Frame.fdiv. rewrite of_nat_nonzero by lia. simpl.
  eexists. split; [reflexivity|].
  now apply percentage_bounds.
Qed.

Lemma completion_rate_range_witness :
  Num (100 # 2) = NaN
  \/ exists q, Num (100 # 2) = Num q /\ (0 < q)%Q /\ (q <= 100)%Q.
Proof.
  apply (completion_rate_range
           (AssignmentsTab.filtered_assignments Sample.assignments Sample.summary)
           "Math" (Num (100 # 2))).
  simpl. auto.
Defined.

(** ** When the monthly trend is computed *)

Lemma column_defined (df : AttendanceTab.frame) (c : bool) :
  ((exists s, AttendanceTab.column df c = Ok s) <-> In c (AttendanceTab.columns df))
  /\ (AttendanceTab.column df c = KeyError <-> ~ In c (AttendanceTab.columns df)).
Proof.
  unfold AttendanceTab.column.
  destruct (Frame.index (AttendanceTab.columns df) c) as [i|] eqn:E.
  - assert (Hin : In c (AttendanceTab.columns df)).
    { apply index_Some in E. eapply nth_error_In; eauto. }
    split; split; eauto; try discriminate. intros Hn. contradiction.
  - apply index_None in E.
    split; split; auto.
    + intros (s & Hs). discriminate.
    + contradiction.
Qed.

(** Inside the guard of line 251: on a joined table with rows, the rates
    are computed exactly when it has a dated presence and a dated absence. *)
Lemma Attendance_Rate_body :
  forall (filtered : list Attendance.row),
    let dated (c : bool) :=
      exists r m, In r filtered /\ AttendanceTab.Month r = Some m
                  /\ Attendance.Present r = c in
    ((exists trend, AttendanceTab.Attendance_Rate filtered = Ok trend)
     <-> dated true /\ dated false)
    /\ (AttendanceTab.Attendance_Rate filtered = KeyError
        <-> ~ (dated true /\ dated false)).
Proof.
  intros filtered dated. unfold dated.
  rewrite <- !In_columns.
  unfold AttendanceTab.Attendance_Rate.
  set (df := AttendanceTab.unstack_fillna _).
  destruct (column_defined df true) as [Ht1 Ht2].
  destruct (column_defined df false) as [Hf1 Hf2].
  assert (Hnot : forall c, AttendanceTab.column df c <> ValueError
                           /\ AttendanceTab.column df c <> IndexError).
  { intros c. unfold AttendanceTab.column.
    destruct (Frame.index (AttendanceTab.columns df) c); split; discriminate. }
  destruct (AttendanceTab.column df true) as [present| | |] eqn:Ep; simpl;
    try (exfalso; now destruct (Hnot true)).
  - assert (Hin : In true (AttendanceTab.columns df)) by (apply Ht1; eauto).
    destruct (AttendanceTab.column df false) as [absent| | |] eqn:Ea; simpl;
      try (exfalso; now destruct (Hnot false)).
    + assert (Hin' : In false (AttendanceTab.columns df)) by (apply Hf1; eauto).
      split; split; intros; eauto; try discriminate; tauto.
    + assert (Hout : ~ In false (AttendanceTab.columns df)) by now apply Hf2.
      split; split; intros; auto; try tauto;
        try (match goal with H : exists _, _ |- _ => destruct H; discriminate end).
  - assert (Hout : ~ In true (AttendanceTab.columns df)) by now apply Ht2.
    split; split; intros; auto; try tauto;
      try (match goal with H : exists _, _ |- _ => destruct H; discriminate end).
Qed.

(** The monthly trend raises KeyError exactly when the joined attendance
    table has rows but not both a dated presence and a dated absence (only
    presences, only absences, or no date that could be parsed); it is
    computed, or skipped without an error, in every other case. *)
Theorem monthly_trend_defined :
  forall (attendance : list Attendance.row) (filtered_summary : list Summary.row),
    let filtered := AttendanceTab.filtered_attendance attendance filtered_summary in
    let dated (c : bool) :=
      exists r m, In r filtered /\ AttendanceTab.Month r = Some m
                  /\ Attendance.Present r = c in
    (AttendanceTab.monthly_trend attendance filtered_summary = KeyError
     <-> filtered <> [] /\ ~ (dated true /\ dated false))
    /\ ((exists trend, AttendanceTab.monthly_trend attendance filtered_summary = Ok trend)
        <-> filtered = [] \/ (dated true /\ dated false)).
Proof.
  intros attendance fs filtered dated.
  unfold AttendanceTab.monthly_trend. fold filtered.
  destruct (Attendance_Rate_body filtered) as [Hok Herr]. fold dated in Hok, Herr.
  destruct filtered as [|r0 t0] eqn:E.
  - simpl. split.
    + split; [discriminate | intros [Hne _]; congruence].
    + split; eauto.
  - cbn [Summary.empty negb]. cbv iota.
    split.
    + rewrite Herr. split.
      * intros Hn. split; [discriminate | exact Hn].
      * intros [_ Hn]. exact Hn.
    + rewrite Hok. split; auto. intros [Hnil|Hd]; [discriminate | exact Hd].
Qed.

(** Both values of Present are on record, yet no date could be parsed. *)
Example monthly_trend_undated :
  AttendanceTab.monthly_trend
    [Sample.attended "1" None true; Sample.attended "2" None false] Sample.summary
  = KeyError.
Proof. reflexivity. Qed.

(** When the rates are computed, every reported month has a dated row of
    the joined table behind it and a rate between 0 and 1. *)
Theorem Attendance_Rate_in_unit_interval :
  forall (filtered : list Attendance.row)
         (trend : list (AttendanceTab.month_label * cell))
         (m : AttendanceTab.month_label) (c : cell),
    AttendanceTab.Attendance_Rate filtered = Ok trend ->
    In (m, c) trend ->
    (exists r, In r filtered /\ AttendanceTab.Month r = Some m)
    /\ exists q, c = Num q /\ (0 <= q <= 1)%Q.
Proof. exact Attendance_Rate_bounds. Qed.

Lemma Attendance_Rate_in_unit_interval_witness :
  (exists r, In r (AttendanceTab.filtered_attendance Sample.attendance_mixed Sample.summary)
             /\ AttendanceTab.Month r = Some (2024, 1)%Z)
  /\ exists q, Num (1 # 2) = Num q /\ (0 <= q <= 1)%Q.
Proof.
  apply (Attendance_Rate_in_unit_interval
           (AttendanceTab.filtered_attendance Sample.attendance_mixed Sample.summary)
           [((2024, 1)%Z, Num (1 # 2)); ((2024, 2)%Z, Num 1)]
           (2024, 1)%Z (Num (1 # 2))).
  - reflexivity.
  - simpl. auto.
Defined.

(** ** The distribution of remarks *)

Lemma length_filter_disjoint {A : Type} (p q : A -> bool) (l : list A) :
  (forall x, In x l -> p x = true -> q x = false) ->
  length (filter (fun x => p x || q x) l)
  = (length (filter p l) + length (filter q l))%nat.
Proof.
  induction l as [|x t IH]; simpl; intros Hpq; [reflexivity|].
  assert (IH' := IH (fun y Hy => Hpq y (or_intror Hy))).
  destruct (p x) eqn:Ep; simpl.
  - rewrite (Hpq x (or_introl eq_refl) Ep). simpl. lia.
  - destruct (q x); simpl; lia.
Qed.

Lemma sizes_over_groups {A K : Type} (holds : A -> K -> bool) (ks : list K) (t : list A) :
  (forall r k k', holds r k = true -> holds r k' = true -> k = k') ->
  NoDup ks ->
  list_sum (map (fun k => length (filter (fun r => holds r k) t)) ks)
  = length (filter (fun r => existsb (holds r) ks) t).
Proof.
  intros Hone. induction 1 as [|k ks Hk Hks IH]; simpl.
  - induction t as [|r t' IHt]; simpl; auto.
  - rewrite IH.
    rewrite (length_filter_disjoint (fun r => holds r k) (fun r => existsb (holds r) ks)).
    + reflexivity.
    + intros r _ E.
      destruct (existsb (holds r) ks) eqn:Ex; auto.
      apply existsb_exists in Ex as (k' & Hk' & E').
      rewrite (Hone r k k' E E') in Hk. contradiction.
Qed.

Lemma list_sum_perm (l1 l2 : list nat) :
  Permutation l1 l2 -> list_sum l1 = list_sum l2.
Proof. induction 1; simpl; lia. Qed.

Lemma insert_by_count_perm (x : string * nat) (l : list (string * nat)) :
  Permutation (RemarksTab.insert_by_count x l) (x :: l).
Proof.
  induction l as [|y t IH]; simpl; auto.
  destruct (snd y <=? snd x)%nat; auto.
  rewrite IH. apply perm_swap.
Qed.

Lemma by_count_descending_perm (l : list (string * nat)) :
  Permutation (RemarksTab.by_count_descending l) l.
Proof.
  unfold RemarksTab.by_count_descending.
  induction l as [|x t IH]; simpl; auto.
  rewrite insert_by_count_perm. now constructor.
Qed.

(** The remark distribution covers exactly the joined remark rows whose
    Remark cell is present: whatever order the library's sort gives the
    counts, they add up to the number of these rows, and every listed
    remark is listed with the number of joined rows carrying it, which is
    positive. *)
Theorem remark_counts_total :
  forall (sort_values : list (string * nat) -> list (string * nat))
         (filtered : list Remarks.row),
    (forall l, Permutation (sort_values l) l) ->
    list_sum (map snd (RemarksTab.remark_counts sort_values filtered))
    = length (filter (fun r => match Remarks.Remark r with
                               | Some _ => true
                               | None => false
                               end) filtered)
    /\ forall v n, In (v, n) (RemarksTab.remark_counts sort_values filtered) ->
                   (0 < n)%nat
                   /\ n = length (filter (fun r => Frame.has_key (Remarks.Remark r) v)
                                         filtered).
Proof.
  intros sort_values filtered Hperm.
  unfold RemarksTab.remark_counts, RemarksTab.value_counts.
  set (column := map Remarks.Remark filtered).
  set (counted := map (fun v => (v, length (filter (fun c => Frame.has_key c v) column)))
                      (Frame.unique (Frame.dropna column))).
  assert (Hcount : forall v, length (filter (fun c => Frame.has_key c v) column)
                             = length (filter (fun r => Frame.has_key (Remarks.Remark r) v)
                                              filtered)).
  { intros v. unfold column. rewrite filter_map_comm. apply length_map. }
  split.
  - rewrite (list_sum_perm _ _ (Permutation_map snd (Hperm counted))).
    unfold counted. rewrite map_map. simpl.
    rewrite (sizes_over_groups (fun (c : option string) v => Frame.has_key c v)
               (Frame.unique (Frame.dropna column)) column
               (fun c k k' => has_key_one c k k')
               (NoDup_unique (Frame.dropna column))).
    unfold column. rewrite filter_map_comm, length_map.
    f_equal. apply filter_ext_in. intros r Hr.
    destruct (Remarks.Remark r) as [v|] eqn:E.
    + apply existsb_exists. exists v. split.
      * apply In_unique, In_dropna, in_map_iff. eauto.
      * apply keq_refl.
    + induction (Frame.unique _) as [|k ks IH]; simpl; auto.
  - intros v n Hin.
    apply (Permutation_in _ (Hperm counted)) in Hin.
    unfold counted in Hin. apply in_map_iff in Hin as (v' & [= -> <-] & Hv).
    apply (proj1 (In_unique _ _)) in Hv. apply In_dropna in Hv.
    rewrite <- Hcount. split; [|reflexivity].
    assert (Hin : In (Some v) (filter (fun c => Frame.has_key c v) column)).
    { apply filter_In. split; auto. now apply has_key_iff. }
    destruct (filter (fun c => Frame.has_key c v) column); [destruct Hin | simpl; lia].
Qed.

(** Of the four joined sample remarks, one has a blank Remark cell. *)
Lemma remark_counts_total_witness :
  list_sum (map snd (RemarksTab.remark_counts RemarksTab.by_count_descending
                       (RemarksTab.filtered_remarks Sample.remarks Sample.summary)))
  = 3%nat.
Proof.
  exact (proj1 (remark_counts_total RemarksTab.by_count_descending
                  (RemarksTab.filtered_remarks Sample.remarks Sample.summary)
                  by_count_descending_perm)).
Defined.

(** ** The head of the rankings *)

Lemma in_order_refl (by_ : Summary.row -> Q) (ascending : bool) (a : Summary.row) :
  Ranking.in_order by_ ascending a a.
Proof. unfold Ranking.in_order. destruct ascending; apply Qle_refl. Qed.

Lemma ranked_first (sort_values : Ranking.sorter) (by_ : Summary.row -> Q)
      (ascending : bool) (n : nat) (cohort : list Summary.row)
      (x : Summary.row) (rest : list Summary.row) :
  Ranking.sorts sort_values ->
  Ranking.ranked sort_values by_ ascending n cohort = x :: rest ->
  forall r, In r cohort -> Ranking.in_order by_ ascending x r.
Proof.
  intros Hsorts E r Hr.
  destruct (Hsorts by_ ascending cohort) as [Hp Hs].
  unfold Ranking.ranked, Frame.head in E.
  apply (Permutation_in _ (Permutation_sym Hp)) in Hr.
  destruct (sort_values by_ ascending cohort) as [|y tail]; destruct n; try discriminate.
  simpl in E. injection E as -> _.
  inversion Hs as [|? ? _ Hall]; subst.
  destruct Hr as [<-|Hr]; [apply in_order_refl|].
  rewrite Forall_forall in Hall. auto.
Qed.

(** Whatever sorting routine the library runs, the first of the top
    scholars has the highest average score of the cohort, the first of the
    students needing support the lowest, and a cohort of at most five
    students is listed completely in both tables. *)
Theorem performers_extremes :
  forall (sort_values : Ranking.sorter) (cohort : list Summary.row),
    Ranking.sorts sort_values ->
    (forall x rest, Ranking.top_performers sort_values cohort = x :: rest ->
                    forall r, In r cohort ->
                              (Summary.Average_Score r <= Summary.Average_Score x)%Q)
    /\ (forall x rest, Ranking.bottom_performers sort_values cohort = x :: rest ->
                       forall r, In r cohort ->
                                 (Summary.Average_Score x <= Summary.Average_Score r)%Q)
    /\ ((length cohort <= 5)%nat ->
        Permutation (Ranking.top_performers sort_values cohort) cohort
        /\ Permutation (Ranking.bottom_performers sort_values cohort) cohort).
Proof.
  intros sort_values cohort Hsorts. split; [|split].
  - intros x rest E r Hr.
    exact (ranked_first sort_values Summary.Average_Score false 5 cohort x rest Hsorts E r Hr).
  - intros x rest E r Hr.
    exact (ranked_first sort_values Summary.Average_Score true 5 cohort x rest Hsorts E r Hr).
  - intros Hlen.
    unfold Ranking.top_performers, Ranking.bottom_performers, Ranking.ranked, Frame.head.
    destruct (Hsorts Summary.Average_Score false cohort) as [Hp1 _].
    destruct (Hsorts Summary.Average_Score true cohort) as [Hp2 _].
    rewrite !firstn_all2; auto.
    + rewrite (Permutation_length Hp2). exact Hlen.
    + rewrite (Permutation_length Hp1). exact Hlen.
Qed.

Lemma performers_extremes_witness :
  (Summary.Average_Score Sample.singh <= Summary.Average_Score Sample.kumar1)%Q.
Proof.
  refine (proj1 (performers_extremes Ranking.insertion_sort Sample.summary
                   insertion_sort_sorts)
                Sample.kumar1 [Sample.kumar2; Sample.singh] eq_refl Sample.singh _).
  simpl. auto.
Defined.

(** ** The upcoming-deadlines table *)

Lemma datetime_ge_spec (a b : datetime) :
  datetime_ge a b = true <->
  (year a > year b
   \/ (year a = year b
       /\ (month a > month b
           \/ (month a = month b
               /\ (day a > day b
                   \/ (day a = day b /\ seconds b <= seconds a))))))%Z.
Proof.
  unfold datetime_ge.
  destruct (Z.compare_spec (year a) (year b)); [|split; [discriminate | lia]|split; [lia|reflexivity]].
  destruct (Z.compare_spec (month a) (month b)); [|split; [discriminate | lia]|split; [lia|reflexivity]].
  destruct (Z.compare_spec (day a) (day b)); [|split; [discriminate | lia]|split; [lia|reflexivity]].
  rewrite Z.leb_le. lia.
Qed.

Lemma datetime_ge_total (a b : datetime) :
  datetime_ge a b = false -> datetime_ge b a = true.
Proof.
  intros E. apply datetime_ge_spec.
  assert (Hn : ~ (datetime_ge a b = true)) by congruence.
  rewrite datetime_ge_spec in Hn. lia.
Qed.

Lemma datetime_ge_trans (a b c : datetime) :
  datetime_ge a b = true -> datetime_ge b c = true -> datetime_ge a c = true.
Proof. rewrite !datetime_ge_spec. lia. Qed.

Lemma deadline_le_total (a b : Assignments.row) :
  UpcomingTab.deadline_le a b = false -> UpcomingTab.deadline_le b a = true.
Proof.
  unfold UpcomingTab.deadline_le.
  destruct (Assignments.Deadline a), (Assignments.Deadline b); auto; try discriminate.
  apply datetime_ge_total.
Qed.

Lemma deadline_le_trans (a b c : Assignments.row) :
  UpcomingTab.deadline_le a b = true -> UpcomingTab.deadline_le b c = true ->
  UpcomingTab.deadline_le a c = true.
Proof.
  unfold UpcomingTab.deadline_le.
  destruct (Assignments.Deadline a), (Assignments.Deadline b), (Assignments.Deadline c);
    auto; try discriminate.
  intros H1 H2. eapply datetime_ge_trans; eauto.
Qed.

Lemma insert_by_deadline_perm (x : Assignments.row) (l : list Assignments.row) :
  Permutation (UpcomingTab.insert_by_deadline x l) (x :: l).
Proof.
  induction l as [|y t IH]; simpl; auto.
  destruct (UpcomingTab.deadline_le x y); auto.
  rewrite IH. apply perm_swap.
Qed.

Lemma insert_by_deadline_sorted (x : Assignments.row) (l : list Assignments.row) :
  StronglySorted (fun a b => UpcomingTab.deadline_le a b = true) l ->
  StronglySorted (fun a b => UpcomingTab.deadline_le a b = true)
                 (UpcomingTab.insert_by_deadline x l).
Proof.
  induction 1 as [|y t Ht IH Hy]; simpl.
  - constructor; constructor.
  - destruct (UpcomingTab.deadline_le x y) eqn:E.
    + constructor; [constructor; assumption|].
      constructor; auto.
      eapply Forall_impl; [|exact Hy].
      intros z Hz. eapply deadline_le_trans; eauto.
    + apply deadline_le_total in E.
      constructor; auto.
      eapply Permutation_Forall; [symmetry; apply insert_by_deadline_perm|].
      constructor; auto.
Qed.

Lemma deadline_insertion_sort_sorts : UpcomingTab.sorts UpcomingTab.insertion_sort.
Proof.
  intros t. unfold UpcomingTab.insertion_sort.
  induction t as [|x t [IHp IHs]]; simpl.
  - split; constructor.
  - split.
    + rewrite insert_by_deadline_perm. now constructor.
    + now apply insert_by_deadline_sorted.
Qed.

(** The upcoming-deadlines table shows at most ten rows, namely
    min(10, number of upcoming rows); they are rows of the joined table with
    a parsed deadline not before the current time, in ascending order of
    deadline. *)
Theorem upcoming_display_rows :
  forall (sort_values : UpcomingTab.sorter) (now : datetime)
         (filtered : list Assignments.row),
    UpcomingTab.sorts sort_values ->
    length (UpcomingTab.upcoming_display sort_values now filtered)
    = Nat.min 10 (length (AssignmentsTab.upcoming now filtered))
    /\ StronglySorted (fun a b => UpcomingTab.deadline_le a b = true)
                      (UpcomingTab.upcoming_display sort_values now filtered)
    /\ forall r, In r (UpcomingTab.upcoming_display sort_values now filtered) ->
                 In r filtered
                 /\ exists d, Assignments.Deadline r = Some d /\ datetime_ge d now = true.
Proof.
  intros sort_values now filtered Hsorts.
  destruct (Hsorts (AssignmentsTab.upcoming now filtered)) as [Hp Hs].
  unfold UpcomingTab.upcoming_display, Frame.head.
  split; [|split].
  - rewrite length_firstn. now rewrite (Permutation_length Hp).
  - now apply StronglySorted_firstn.
  - intros r Hr.
    assert (Hin : In r (AssignmentsTab.upcoming now filtered)).
    { apply (Permutation_in _ Hp).
      rewrite <- (firstn_skipn 10). apply in_or_app. now left. }
    apply filter_In in Hin as [Hin Hge]. split; auto.
    destruct (Assignments.Deadline r) as [d|]; [eauto | discriminate].
Qed.

Lemma upcoming_display_rows_witness :
  length (UpcomingTab.upcoming_display UpcomingTab.insertion_sort Sample.now
            (AssignmentsTab.filtered_assignments Sample.assignments Sample.summary))
  = 3%nat.
Proof.
  exact (proj1 (upcoming_display_rows UpcomingTab.insertion_sort Sample.now
                  (AssignmentsTab.filtered_assignments Sample.assignments Sample.summary)
                  deadline_insertion_sort_sorts)).
Defined.
